(** * The chat relay handler of [api/chat.js], embedded and verified

    The repository is one serverless handler, [module.exports = async (req, res)
    => ...].  It is embedded here as a function in a small state-and-exception
    monad over a [world] that holds what the handler can change: the outbound
    response (headers, status, body), the console, and the list of calls made
    to the upstream API.  What the handler reads from outside is an [Env]: the
    process environment and the upstream API seen as a function from the
    request sent to the outcome of [fetch].

    JavaScript values are the values [JSON.parse] produces, plus [undefined].
    A JSON body is held as the document it denotes: [body] of a request is
    the parsed [req.body], [fetch_body] is the argument of [JSON.stringify],
    [json_of] is what [response.json()] resolves to and [json_body] is the
    argument of [res.json].  A string value is a Rocq string, one character
    for one code unit; the string decoded from a chunk of the upstream body,
    whose bytes are written to the response, is the list of its code points.
    The text decoder of the streaming branch is the UTF-8 decoder of the
    WHATWG Encoding Standard, which is what [new TextDecoder()] is.  Headers
    that the framework adds by itself are not recorded. *)

From Stdlib Require Import ZArith Lia Bool List Ascii String.
From Stdlib Require Import Floats.SpecFloat.
From stdpp Require Import base strings pretty gmap.
Import ListNotations.

Local Open Scope string_scope.
Local Open Scope Z_scope.

(** ** JavaScript values *)

Module JS.

(** A number is an IEEE 754 binary64 value, as [spec_float] has it. *)
#[warnings="-register-all"]
Inductive val : Type :=
| VUndef
| VNull
| VBool (b : bool)
| VNum (x : spec_float)
| VStr (s : string)
| VArr (elems : list val)
| VObj (fields : list (string * val)).

(** Errors thrown by the language, by [JSON.parse] inside [response.json()],
    and by the network layer.  Only [message] is read by the handler. *)
Inductive exn : Type :=
| TypeError (message : string)
| SyntaxError (message : string)
| NetworkError (message : string).

Definition message (e : exn) : string :=
  match e with
  | TypeError m | SyntaxError m | NetworkError m => m
  end.

Inductive result (A : Type) : Type :=
| Ok (a : A)
| Throw (e : exn).
Arguments Ok {A} a.
Arguments Throw {A} e.

(** The literals of the source. *)
Definition num_0 : spec_float := S754_zero false.
Definition num_1 : spec_float := S754_finite false 4503599627370496 (-52).
Definition num_40 : spec_float := S754_finite false 5629499534213120 (-47).
Definition num_8192 : spec_float := S754_finite false 4503599627370496 (-39).
(** [0.6] is the binary64 number [0x3FE3333333333333]. *)
Definition num_0_6 : spec_float := S754_finite false 5404319552844595 (-53).

(** The name of a nullish value in the messages of V8. *)
Definition nullish_name (v : val) : string :=
  match v with
  | VNull => "null"
  | _ => "undefined"
  end.

(** ToBoolean. *)
Definition truthy (v : val) : bool :=
  match v with
  | VUndef | VNull => false
  | VBool b => b
  | VNum (S754_zero _) | VNum S754_nan => false
  | VNum _ => true
  | VStr s => negb (String.eqb s "")
  | VArr _ | VObj _ => true
  end.

(** [a || b] *)
Definition logical_or (a b : val) : val := if truthy a then a else b.

Definition nullish (v : val) : bool :=
  match v with
  | VUndef | VNull => true
  | _ => false
  end.

Definition lookup_field (k : string) (fields : list (string * val)) : val :=
  match find (fun kv => String.eqb (fst kv) k) fields with
  | Some kv => snd kv
  | None => VUndef
  end.

Definition has_field (k : string) (fields : list (string * val)) : bool :=
  existsb (fun kv => String.eqb (fst kv) k) fields.

(** [v.k] for a [v] that is not nullish and a name [k] that no prototype
    defines ([model], [content], [choices], ...): an own property of an
    object, [undefined] on every other value. *)
Definition prop (v : val) (k : string) : val :=
  match v with
  | VObj fields => lookup_field k fields
  | _ => VUndef
  end.

(** [v[i]] for a [v] that is not nullish. *)
Definition index (v : val) (i : nat) : val :=
  match v with
  | VArr elems => nth i elems VUndef
  | VStr s => match String.get i s with
              | Some c => VStr (String c EmptyString)
              | None => VUndef
              end
  | VObj fields => lookup_field (pretty (N.of_nat i)) fields
  | _ => VUndef
  end.

(** [v?.k] *)
Definition opt_prop (v : val) (k : string) : val :=
  if nullish v then VUndef else prop v k.

(** [hay.includes(needle)] on strings. *)
Fixpoint includes (hay needle : string) : bool :=
  String.prefix needle hay ||
  match hay with
  | EmptyString => false
  | String _ rest => includes rest needle
  end.

(** [s.substring(0, n)] *)
Definition substring0 (n : nat) (s : string) : string := String.substring 0 n s.

(** *** The comparison [x > 0]

    [tools.length > 0] compares a number when [tools] is an array or a
    string; when [tools] is an object with a field [length] the field goes
    through ToNumber first. *)

Definition sf_positive (x : spec_float) : bool :=
  match x with
  | S754_infinity false | S754_finite false _ _ => true
  | _ => false
  end.

Definition is_space (c : ascii) : bool :=
  let n := nat_of_ascii c in
  ((9 <=? n)%nat && (n <=? 13)%nat) || (n =? 32)%nat.

(** The leading run of characters accepted by [digit_value] in base [base]:
    its value, its length, and the rest of the string. *)
Definition digit_value (base : Z) (c : ascii) : option Z :=
  let n := Z.of_nat (nat_of_ascii c) in
  let d := if (48 <=? n) && (n <=? 57) then n - 48
           else if (97 <=? n) && (n <=? 102) then n - 87
           else if (65 <=? n) && (n <=? 70) then n - 55
           else base in
  if d <? base then Some d else None.

Fixpoint digits_from (base acc : Z) (count : nat) (s : string) : Z * nat * string :=
  match s with
  | EmptyString => (acc, count, s)
  | String c rest =>
      match digit_value base c with
      | Some d => digits_from base (acc * base + d) (S count) rest
      | None => (acc, count, s)
      end
  end.

Definition digits (base : Z) (s : string) : Z * nat * string := digits_from base 0 0%nat s.

Fixpoint drop_spaces (s : string) : string :=
  match s with
  | String c rest => if is_space c then drop_spaces rest else s
  | EmptyString => s
  end.

Definition trim (s : string) : string :=
  String.rev (drop_spaces (String.rev (drop_spaces s))).

(** A decimal mantissa [m] scaled by [10^k] rounds to a binary64 above zero
    unless it is zero or at most [2^-1075]. *)
Definition decimal_positive (m k : Z) : bool :=
  (0 <? m) && ((0 <=? k) || (10 ^ (- k) <? m * 2 ^ 1075)).

Definition exponent_part (m : Z) (frac : nat) (s : string) : bool :=
  match s with
  | EmptyString => decimal_positive m (- Z.of_nat frac)
  | String c rest =>
      if Ascii.eqb c "e" || Ascii.eqb c "E" then
        let '(neg, rest) :=
          match rest with
          | String "+" r => (false, r)
          | String "-" r => (true, r)
          | _ => (false, rest)
          end in
        let '(e, n, rest) := digits 10 rest in
        match n, rest with
        | S _, EmptyString =>
            decimal_positive m ((if neg then - e else e) - Z.of_nat frac)
        | _, _ => false
        end
      else false
  end.

Definition unsigned_decimal_positive (s : string) : bool :=
  if String.eqb s "Infinity" then true else
  let '(ip, n1, r1) := digits 10 s in
  match r1 with
  | String "." r2 =>
      let '(fp, n2, r3) := digits 10 r2 in
      match (n1 + n2)%nat with
      | O => false
      | _ => exponent_part (ip * 10 ^ Z.of_nat n2 + fp) n2 r3
      end
  | _ => match n1 with
         | O => false
         | _ => exponent_part ip 0 r1
         end
  end.

Definition radix_positive (base : Z) (s : string) : bool :=
  let '(v, n, rest) := digits base s in
  match n, rest with
  | S _, EmptyString => 0 <? v
  | _, _ => false
  end.

(** StringToNumber(s) > 0 *)
Definition string_positive (s : string) : bool :=
  match trim s with
  | String "0" (String c rest) =>
      if Ascii.eqb c "x" || Ascii.eqb c "X" then radix_positive 16 rest
      else if Ascii.eqb c "o" || Ascii.eqb c "O" then radix_positive 8 rest
      else if Ascii.eqb c "b" || Ascii.eqb c "B" then radix_positive 2 rest
      else unsigned_decimal_positive (trim s)
  | String "+" rest => unsigned_decimal_positive rest
  | t => unsigned_decimal_positive t
  end.

(** ToString succeeds on [v]: an object parsed from JSON converts through
    [Object.prototype.toString] unless an own field [toString] hides it, and
    an array joins the conversions of its elements. *)
Fixpoint to_string_ok (v : val) : bool :=
  match v with
  | VObj fields => negb (has_field "toString" fields)
  | VArr elems => forallb to_string_ok elems
  | _ => true
  end.

(** ToNumber(ToString v) > 0, for a [v] on which ToString succeeds. *)
Fixpoint to_string_positive (v : val) : bool :=
  match v with
  | VNum x => sf_positive x
  | VStr s => string_positive s
  | VArr [x] => if nullish x then false else to_string_positive x
  | _ => false
  end.

(** [v > 0] *)
Definition gt0 (v : val) : result bool :=
  match v with
  | VUndef | VNull => Ok false
  | VBool b => Ok b
  | VNum x => Ok (sf_positive x)
  | VStr s => Ok (string_positive s)
  | VArr _ | VObj _ =>
      if to_string_ok v then Ok (to_string_positive v)
      else Throw (TypeError "Cannot convert object to primitive value")
  end.

(** [v.length > 0] for a [v] that is not nullish. *)
Definition length_gt0 (v : val) : result bool :=
  match v with
  | VArr elems => Ok (0 <? length elems)%nat
  | VStr s => Ok (0 <? String.length s)%nat
  | VObj fields => gt0 (lookup_field "length" fields)
  | _ => Ok false
  end.

End JS.

(** ** Text: the UTF-8 decoder and encoder of the platform

    [decoder.decode(value, { stream: true })] turns the bytes of one read into
    a string and keeps the state of an unfinished sequence for the next read;
    [res.write(chunk)] turns the string back into UTF-8 bytes.  A byte and a
    code point are integers; a decoded string is the list of its code points
    (all scalar values, since the decoder emits nothing else). *)

Module UTF8.

(** A byte is an integer from 0 to 255. *)
Definition byte := Z.
Definition text := list Z.

Definition REPLACEMENT : Z := 0xFFFD.
Definition BOM : Z := 0xFEFF.

(** The state of the WHATWG UTF-8 decoder. *)
Record utf8_state : Type := {
  code_point : Z;
  bytes_seen : Z;
  bytes_needed : Z;
  lower_boundary : Z;
  upper_boundary : Z
}.

Definition utf8_initial : utf8_state :=
  {| code_point := 0; bytes_seen := 0; bytes_needed := 0;
     lower_boundary := 0x80; upper_boundary := 0xBF |}.

Definition in_range (lo hi b : Z) : bool := (lo <=? b) && (b <=? hi).

(** The handler of the decoder when no bytes are needed. *)
Definition lead (st : utf8_state) (b : byte) : utf8_state * text :=
  if in_range 0x00 0x7F b then (st, [b])
  else if in_range 0xC2 0xDF b then
    ({| code_point := Z.land b 0x1F; bytes_seen := bytes_seen st; bytes_needed := 1;
        lower_boundary := lower_boundary st; upper_boundary := upper_boundary st |}, [])
  else if in_range 0xE0 0xEF b then
    ({| code_point := Z.land b 0xF; bytes_seen := bytes_seen st; bytes_needed := 2;
        lower_boundary := if b =? 0xE0 then 0xA0 else lower_boundary st;
        upper_boundary := if b =? 0xED then 0x9F else upper_boundary st |}, [])
  else if in_range 0xF0 0xF4 b then
    ({| code_point := Z.land b 0x7; bytes_seen := bytes_seen st; bytes_needed := 3;
        lower_boundary := if b =? 0xF0 then 0x90 else lower_boundary st;
        upper_boundary := if b =? 0xF4 then 0x8F else upper_boundary st |}, [])
  else (st, [REPLACEMENT]).

(** One byte through the decoder, errors replaced by U+FFFD.  A byte that
    cannot continue the sequence in progress ends it with an error and is
    then read again as the start of a new sequence. *)
Definition utf8_step (st : utf8_state) (b : byte) : utf8_state * text :=
  if bytes_needed st =? 0 then lead st b
  else if negb (in_range (lower_boundary st) (upper_boundary st) b) then
    let '(st', out) := lead utf8_initial b in (st', REPLACEMENT :: out)
  else
    let cp := Z.lor (Z.shiftl (code_point st) 6) (Z.land b 0x3F) in
    let seen := bytes_seen st + 1 in
    if seen =? bytes_needed st then (utf8_initial, [cp])
    else ({| code_point := cp; bytes_seen := seen; bytes_needed := bytes_needed st;
             lower_boundary := 0x80; upper_boundary := 0xBF |}, []).

Fixpoint utf8_run (st : utf8_state) (bs : list byte) : utf8_state * text :=
  match bs with
  | [] => (st, [])
  | b :: rest =>
      let '(st1, out1) := utf8_step st b in
      let '(st2, out2) := utf8_run st1 rest in
      (st2, (out1 ++ out2)%list)
  end.

(** A [TextDecoder] with the default options ([fatal] and [ignoreBOM] false). *)
Record decoder : Type := {
  utf8 : utf8_state;
  bom_seen : bool
}.

Definition new_TextDecoder : decoder := {| utf8 := utf8_initial; bom_seen := false |}.

(** [decoder.decode(value, { stream: true })]: the state is kept and nothing
    is flushed; the first code point the decoder ever emits is dropped when
    it is the byte order mark. *)
Definition decode (d : decoder) (value : list byte) : decoder * text :=
  let '(st, out) := utf8_run (utf8 d) value in
  match out with
  | [] => ({| utf8 := st; bom_seen := bom_seen d |}, [])
  | c :: rest =>
      ({| utf8 := st; bom_seen := true |},
       if negb (bom_seen d) && (c =? BOM) then rest else out)
  end.

(** The UTF-8 bytes of a scalar value. *)
Definition encode_code_point (c : Z) : list byte :=
  if c <=? 0x7F then [c]
  else if c <=? 0x7FF then
    [Z.lor 0xC0 (Z.shiftr c 6); Z.lor 0x80 (Z.land c 0x3F)]
  else if c <=? 0xFFFF then
    [Z.lor 0xE0 (Z.shiftr c 12); Z.lor 0x80 (Z.land (Z.shiftr c 6) 0x3F);
     Z.lor 0x80 (Z.land c 0x3F)]
  else
    [Z.lor 0xF0 (Z.shiftr c 18); Z.lor 0x80 (Z.land (Z.shiftr c 12) 0x3F);
     Z.lor 0x80 (Z.land (Z.shiftr c 6) 0x3F); Z.lor 0x80 (Z.land c 0x3F)].

(** The bytes [res.write] sends for a string. *)
Definition encode (t : text) : list byte := flat_map encode_code_point t.

Definition scalar (c : Z) : bool :=
  in_range 0 0xD7FF c || in_range 0xE000 0x10FFFF c.

(** [chunk.length]: the number of UTF-16 code units. *)
Definition utf16_length (t : text) : Z :=
  fold_right (fun c n => (if c <=? 0xFFFF then 1 else 2) + n) 0 t.

Definition code_points (s : string) : text :=
  map (fun c => Z.of_nat (nat_of_ascii c)) (list_ascii_of_string s).

Fixpoint is_prefix (needle hay : text) : bool :=
  match needle, hay with
  | [], _ => true
  | n :: needle', h :: hay' => (n =? h) && is_prefix needle' hay'
  | _ :: _, [] => false
  end.

(** [chunk.includes(needle)] on a decoded string. *)
Fixpoint text_includes (hay needle : text) : bool :=
  is_prefix needle hay ||
  match hay with
  | [] => false
  | _ :: rest => text_includes rest needle
  end.

End UTF8.

(** ** The world of one invocation *)

Module Http.
Import JS UTF8.

(** *** The upstream API, as [fetch] shows it *)

Record fetch_request : Type := {
  url : string;
  fetch_method : string;
  fetch_headers : list (string * string);
  (** the argument of [JSON.stringify], that is the document sent *)
  fetch_body : val
}.

(** How the reads of [response.body.getReader()] end. *)
Inductive read_end : Type :=
| EndOfData
| ReadFails (e : exn).

(** A response body as a stream: the chunks that [reader.read()] delivers,
    then the end of data or a failed read.  A body that never ends is not
    represented. *)
Record body_stream : Type := {
  chunks : list (list byte);
  finish : read_end
}.

Record upstream_response : Type := {
  status : Z;
  (** [await response.text()] *)
  text_of : result string;
  (** [await response.json()] *)
  json_of : result val;
  (** [response.body], [None] when it is null *)
  body_of : option body_stream
}.

(** [response.ok] *)
Definition ok (r : upstream_response) : bool :=
  (200 <=? status r) && (status r <=? 299).

Inductive fetch_outcome : Type :=
| Rejected (e : exn)
| Responded (r : upstream_response).

(** *** What the handler reads *)

Record Env : Type := {
  (** [process.env.FIREWORKS_API_KEY], [None] when it is not set *)
  FIREWORKS_API_KEY : option string;
  fetch : fetch_request -> fetch_outcome
}.

Record Request : Type := {
  method : string;
  body : val
}.

(** *** What the handler changes *)

Inductive log_level : Type := Log | Error.

Inductive log_arg : Type :=
| AVal (v : val)
| ABool (b : bool)
| AInt (n : Z)
| AStr (s : string)
| AExn (e : exn).

Record log_entry : Type := {
  level : log_level;
  label : string;
  args : list (string * log_arg)
}.

Record world : Type := {
  (** headers set through [res.setHeader] *)
  headers : gmap string string;
  statusCode : Z;
  (** the bytes of each [res.write], in order *)
  written : list (list byte);
  (** the document of [res.json], if it was called *)
  json_body : option val;
  (** the response was ended, by [res.end()] or by [res.json] *)
  ended : bool;
  console : list log_entry;
  (** the calls of [fetch], in order *)
  upstream_calls : list fetch_request
}.

Definition initial : world :=
  {| headers := ∅; statusCode := 200; written := []; json_body := None;
     ended := false; console := []; upstream_calls := [] |}.

(** *** The monad: state and exceptions *)

Definition M (A : Type) : Type := world -> result A * world.

Definition ret {A} (a : A) : M A := fun w => (Ok a, w).

Definition bind {A B} (m : M A) (k : A -> M B) : M B :=
  fun w => match m w with
           | (Ok a, w') => k a w'
           | (Throw e, w') => (Throw e, w')
           end.

Definition throw {A} (e : exn) : M A := fun w => (Throw e, w).

(** [try { body } catch (error) { handler }] *)
Definition try_catch {A} (body : M A) (handler : exn -> M A) : M A :=
  fun w => match body w with
           | (Ok a, w') => (Ok a, w')
           | (Throw e, w') => handler e w'
           end.

Definition lift {A} (r : result A) : M A := fun w => (r, w).

Declare Scope M_scope.
Delimit Scope M_scope with M.
Bind Scope M_scope with M.
Notation "x <- c1 ;; c2" := (bind c1 (fun x => c2))
  (at level 100, c1 at next level, right associativity) : M_scope.
Notation "c1 ;; c2" := (bind c1 (fun _ => c2))
  (at level 100, right associativity) : M_scope.

Definition setHeader (name value : string) : M unit :=
  fun w => (Ok tt,
    {| headers := <[name := value]> (headers w); statusCode := statusCode w;
       written := written w; json_body := json_body w; ended := ended w;
       console := console w; upstream_calls := upstream_calls w |}).

(** [res.status(code)] *)
Definition res_status (code : Z) : M unit :=
  fun w => (Ok tt,
    {| headers := headers w; statusCode := code;
       written := written w; json_body := json_body w; ended := ended w;
       console := console w; upstream_calls := upstream_calls w |}).

(** [res.json(v)]: the document is the body and the response is complete. *)
Definition res_json (v : val) : M unit :=
  fun w => (Ok tt,
    {| headers := headers w; statusCode := statusCode w;
       written := written w; json_body := Some v; ended := true;
       console := console w; upstream_calls := upstream_calls w |}).

(** [res.write(s)], [bytes] being the UTF-8 bytes of [s]. *)
Definition res_write (bytes : list byte) : M unit :=
  fun w => (Ok tt,
    {| headers := headers w; statusCode := statusCode w;
       written := (written w ++ [bytes])%list; json_body := json_body w;
       ended := ended w;
       console := console w; upstream_calls := upstream_calls w |}).

(** [res.end()] *)
Definition res_end : M unit :=
  fun w => (Ok tt,
    {| headers := headers w; statusCode := statusCode w;
       written := written w; json_body := json_body w; ended := true;
       console := console w; upstream_calls := upstream_calls w |}).

Definition console_write (lv : log_level) (l : string) (a : list (string * log_arg)) : M unit :=
  fun w => (Ok tt,
    {| headers := headers w; statusCode := statusCode w;
       written := written w; json_body := json_body w; ended := ended w;
       console := (console w ++ [{| level := lv; label := l; args := a |}])%list;
       upstream_calls := upstream_calls w |}).

Definition console_log := console_write Log.
Definition console_error := console_write Error.

(** [await fetch(...)]: the call is recorded; a rejected promise throws. *)
Definition do_fetch (env : Env) (rq : fetch_request) : M upstream_response :=
  fun w =>
    let w' :=
      {| headers := headers w; statusCode := statusCode w;
         written := written w; json_body := json_body w; ended := ended w;
         console := console w;
         upstream_calls := (upstream_calls w ++ [rq])%list |} in
    match fetch env rq with
    | Rejected e => (Throw e, w')
    | Responded r => (Ok r, w')
    end.

End Http.

(** ** The handler *)

Module Chat.
Import JS UTF8 Http.
Local Open Scope M_scope.

Definition obj (fields : list (string * string)) : val :=
  VObj (map (fun kv => (fst kv, VStr (snd kv))) fields).

(** *** Detection of the reflection prompts (lines 41-48) *)

Definition markers : list string :=
  ["EMBEDDED REFLECTION"; "TOKEN-BASED REFLECTION"; "REFLECTION AFTER";
   "Chain of Draft"; "~150 tokens"; "embed reflections immediately"].

(** [m.content?.includes(needle)] *)
Definition content_includes (m : val) (needle : string) : result val :=
  if nullish m then
    Throw (TypeError ("Cannot read properties of " ++ nullish_name m ++
                      " (reading 'content')"))
  else
    match prop m "content" with
    | VUndef | VNull => Ok VUndef
    | VStr s => Ok (VBool (includes s needle))
    | VArr elems =>
        Ok (VBool (existsb (fun x => match x with
                                     | VStr t => String.eqb t needle
                                     | _ => false
                                     end) elems))
    | _ => Throw (TypeError "m.content?.includes is not a function")
    end.

(** The callback: the [||] chain over the markers, left to right. *)
Fixpoint mentions (m : val) (needles : list string) : result bool :=
  match needles with
  | [] => Ok false
  | needle :: rest =>
      match content_includes m needle with
      | Throw e => Throw e
      | Ok v => if truthy v then Ok true else mentions m rest
      end
  end.

(** [Array.prototype.some] *)
Fixpoint some (f : val -> result bool) (elems : list val) : result bool :=
  match elems with
  | [] => Ok false
  | m :: rest =>
      match f m with
      | Throw e => Throw e
      | Ok true => Ok true
      | Ok false => some f rest
      end
  end.

(** [messages.some(m => ...)], for [messages] that are not falsy. *)
Definition hasAdvancedCoD (messages : val) : result bool :=
  match messages with
  | VArr elems => some (fun m => mentions m markers) elems
  | _ => Throw (TypeError "messages.some is not a function")
  end.

(** [!!(tools && tools.length > 0)] *)
Definition toolsEnabled (tools : val) : result bool :=
  if truthy tools then length_gt0 tools else Ok false.

(** [messages[messages.length - 1]?.content?.substring(0, 100) + "..."],
    for [messages] that are an array. *)
Definition lastMessagePreview (messages : val) : result string :=
  let last_message :=
    match messages with
    | VArr elems => List.last elems VUndef
    | _ => VUndef
    end in
  match opt_prop last_message "content" with
  | VUndef | VNull => Ok "undefined..."
  | VStr s => Ok (substring0 100 s ++ "...")
  | _ => Throw (TypeError "messages[(messages.length - 1)]?.content?.substring is not a function")
  end.

Definition array_length (v : val) : Z :=
  match v with
  | VArr elems => Z.of_nat (length elems)
  | _ => 0
  end.

(** *** The payload (lines 60-78) *)

Definition fireworksPayload
    (model messages temperature top_p top_k max_tokens
     presence_penalty frequency_penalty stream : val) : list (string * val) :=
  [("model", model);
   ("messages", messages);
   ("temperature", logical_or temperature (VNum num_0_6));
   ("top_p", logical_or top_p (VNum num_1));
   ("top_k", logical_or top_k (VNum num_40));
   ("max_tokens", logical_or max_tokens (VNum num_8192));
   ("presence_penalty", logical_or presence_penalty (VNum num_0));
   ("frequency_penalty", logical_or frequency_penalty (VNum num_0));
   ("stream", logical_or stream (VBool false))].

(** [if (tools && tools.length > 0) { ... }] *)
Definition add_tools (payload : list (string * val)) (tools tool_choice : val)
  : result (list (string * val)) :=
  match toolsEnabled tools with
  | Throw e => Throw e
  | Ok false => Ok payload
  | Ok true =>
      Ok (payload ++ [("tools", tools)] ++
          (if truthy tool_choice then [("tool_choice", tool_choice)] else []))%list
  end.

Definition endpoint : string :=
  "https://api.fireworks.ai/inference/v1/chat/completions".

Definition fireworksHeaders (apiKey : string) : list (string * string) :=
  [("Authorization", "Bearer " ++ apiKey); ("Content-Type", "application/json")].

(** [if (!response.ok) { ... }] (lines 95-102 and 160-167) *)
Definition api_request_failed (response : upstream_response) : M unit :=
  errorText <- lift (text_of response) ;;
  console_error "Fireworks API Error:"
    [("status", AInt (status response)); ("errorText", AStr errorText)] ;;
  res_status (status response) ;;
  res_json (obj [("error", "API request failed"); ("message", errorText)]).

(** *** The streaming branch (lines 104-150) *)

Definition double_quote : string := String (ascii_of_nat 34) EmptyString.
Definition newline : string := String (ascii_of_nat 10) EmptyString.

(** The template literal of line 148. *)
Definition interrupted_event : string :=
  "data: {" ++ double_quote ++ "error" ++ double_quote ++ ": " ++
  double_quote ++ "Streaming interrupted" ++ double_quote ++ "}" ++
  newline ++ newline.

(** The [while (true)] loop over the reads of the body.  The clock of
    lines 122 and 135-137 is only logged and is left out. *)
Fixpoint relay (cod : bool) (reads : list (list byte)) (last : read_end)
    (decoder : UTF8.decoder) (tokenCount : Z) : M unit :=
  match reads with
  | [] =>
      match last with
      | EndOfData =>
          console_log "Stream complete. Total tokens processed:"
            [("tokenCount", AInt tokenCount)]
      | ReadFails e => throw e
      end
  | value :: rest =>
      let '(decoder', chunk) := decode decoder value in
      (if cod && text_includes chunk (code_points "REFLECTION") then
         console_log "CoD Reflection detected in stream at token"
           [("tokenCount", AInt tokenCount)]
       else ret tt) ;;
      res_write (encode chunk) ;;
      relay cod rest last decoder' (tokenCount + (utf16_length chunk + 3) / 4)
  end.

Definition stream_response (cod : bool) (response : upstream_response) : M unit :=
  setHeader "Content-Type" "text/event-stream" ;;
  setHeader "Cache-Control" "no-cache" ;;
  setHeader "Connection" "keep-alive" ;;
  setHeader "Access-Control-Allow-Origin" "*" ;;
  setHeader "Access-Control-Allow-Methods" "GET, POST, OPTIONS" ;;
  setHeader "Access-Control-Allow-Headers" "Content-Type" ;;
  match body_of response with
  | None =>
      res_status 500 ;;
      res_json (obj [("error", "No response body from API")])
  | Some stream =>
      try_catch
        (relay cod (chunks stream) (finish stream) new_TextDecoder 0 ;;
         res_end)
        (fun error =>
           console_error "Streaming error:" [("error", AExn error)] ;;
           res_write (code_points interrupted_event) ;;
           res_end)
  end.

(** *** The buffered branch (lines 169-191) *)

(** [data.choices?.[0]?.message?.content] *)
Definition response_content (data : val) : result val :=
  if nullish data then
    Throw (TypeError ("Cannot read properties of " ++ nullish_name data ++
                      " (reading 'choices')"))
  else
    let choices := prop data "choices" in
    if nullish choices then Ok VUndef else
    let first := index choices 0 in
    if nullish first then Ok VUndef else
    let message := prop first "message" in
    if nullish message then Ok VUndef else
    Ok (prop message "content").

(** The logging of lines 172-189.  The three counts of regular-expression
    matches are left out of the entry; [String.prototype.match] exists on
    every string and on no other value. *)
Definition response_analysis (cod : bool) (data : val) : M unit :=
  if cod then
    content <- lift (response_content data) ;;
    if truthy content then
      match content with
      | VStr responseContent =>
          console_log "Enhanced CoD Response Analysis:"
            [("totalTokens",
              AVal (logical_or (opt_prop (prop data "usage") "total_tokens") (VStr "unknown")));
             ("completionTokens",
              AVal (logical_or (opt_prop (prop data "usage") "completion_tokens") (VStr "unknown")))] ;;
          console_log "Response structure preview:"
            [("preview", AStr (substring0 200 responseContent ++ "..."))]
      | _ => throw (TypeError "responseContent.match is not a function")
      end
    else ret tt
  else ret tt.

(** *** Lines 80-192: the upstream call and the relay of its response *)

Definition forward (env : Env) (apiKey : string) (cod : bool)
    (payload : list (string * val)) (stream : val) : M unit :=
  if truthy stream then
    response <- do_fetch env
      {| url := endpoint; fetch_method := "POST";
         fetch_headers :=
           (fireworksHeaders apiKey ++ [("Accept", "text/event-stream")])%list;
         fetch_body := VObj payload |} ;;
    if negb (ok response) then api_request_failed response
    else stream_response cod response
  else
    response <- do_fetch env
      {| url := endpoint; fetch_method := "POST";
         fetch_headers := fireworksHeaders apiKey;
         fetch_body := VObj payload |} ;;
    if negb (ok response) then api_request_failed response
    else
      data <- lift (json_of response) ;;
      response_analysis cod data ;;
      res_status 200 ;;
      res_json data.

(** *** Lines 18-192: the body of the outer [try] *)

Definition serve (env : Env) (req : Request) : M unit :=
  match FIREWORKS_API_KEY env with
  | None | Some "" =>
      console_error "FIREWORKS_API_KEY environment variable not set" [] ;;
      res_status 500 ;;
      res_json (obj [("error", "Server configuration error");
                     ("message", "API key not configured. Please check server environment variables.")])
  | Some apiKey =>
      (if nullish (body req) then
         throw (TypeError ("Cannot destructure property 'model' of 'req.body' as it is "
                           ++ nullish_name (body req) ++ "."))
       else ret tt) ;;
      let model := prop (body req) "model" in
      let messages := prop (body req) "messages" in
      let temperature := prop (body req) "temperature" in
      let top_p := prop (body req) "top_p" in
      let top_k := prop (body req) "top_k" in
      let max_tokens := prop (body req) "max_tokens" in
      let presence_penalty := prop (body req) "presence_penalty" in
      let frequency_penalty := prop (body req) "frequency_penalty" in
      let stream := prop (body req) "stream" in
      let tools := prop (body req) "tools" in
      let tool_choice := prop (body req) "tool_choice" in
      if negb (truthy model) || negb (truthy messages) then
        console_error "Missing required fields in request:"
          [("model", ABool (truthy model)); ("messages", ABool (truthy messages))] ;;
        res_status 400 ;;
        res_json (obj [("error", "Bad request");
                       ("message", "Missing required fields: model and messages")])
      else
        cod <- lift (hasAdvancedCoD messages) ;;
        enabled <- lift (toolsEnabled tools) ;;
        preview <- lift (lastMessagePreview messages) ;;
        console_log "Processing Enhanced CoD request:"
          [("model", AVal model);
           ("messageCount", AInt (array_length messages));
           ("stream", ABool (truthy stream));
           ("toolsEnabled", ABool enabled);
           ("isEnhancedAdvancedCoD", ABool cod);
           ("lastMessagePreview", AStr preview)] ;;
        payload <- lift (add_tools
                           (fireworksPayload model messages temperature top_p top_k
                              max_tokens presence_penalty frequency_penalty stream)
                           tools tool_choice) ;;
        forward env apiKey cod payload stream
  end.

(** The outer [catch] (lines 194-200). *)
Definition internal_server_error (error : exn) : M unit :=
  console_error "Server error:" [("error", AExn error)] ;;
  res_status 500 ;;
  res_json (obj [("error", "Internal server error"); ("message", message error)]).

(** *** [module.exports] *)

Definition handler (env : Env) (req : Request) : M unit :=
  setHeader "Access-Control-Allow-Origin" "*" ;;
  setHeader "Access-Control-Allow-Methods" "GET, POST, OPTIONS" ;;
  setHeader "Access-Control-Allow-Headers" "Content-Type, Authorization" ;;
  if String.eqb (method req) "OPTIONS" then
    res_status 200 ;; res_end
  else if negb (String.eqb (method req) "POST") then
    res_status 405 ;;
    res_json (obj [("error", "Method not allowed")])
  else
    try_catch (serve env req) internal_server_error.

(** The world after one invocation. *)
Definition run (env : Env) (req : Request) : world := snd (handler env req initial).

End Chat.

(** ** The vocabulary of the claims *)

Module Terms.
Import JS UTF8 Http Chat.

(** *** Requests and responses *)

(** The credential is present: the variable is set and not empty. *)
Definition api_key_present (env : Env) : bool :=
  match FIREWORKS_API_KEY env with
  | None | Some "" => false
  | Some _ => true
  end.

(** A valid request, as the claims spell it: POST, credential present,
    [model] and [messages] present. *)
Definition valid (env : Env) (req : Request) : Prop :=
  method req = "POST" /\
  api_key_present env = true /\
  truthy (prop (body req) "model") = true /\
  truthy (prop (body req) "messages") = true.

Definition streaming (req : Request) : bool := truthy (prop (body req) "stream").

(** A message as the specification has it: an object whose [content] is a
    string. *)
Definition plain_message (m : val) : Prop :=
  exists fields s, m = VObj fields /\ lookup_field "content" fields = VStr s.

(** The three headers of lines 3-5. *)
Definition cors_headers : gmap string string :=
  <["Access-Control-Allow-Headers" := "Content-Type, Authorization"]>
    (<["Access-Control-Allow-Methods" := "GET, POST, OPTIONS"]>
       (<["Access-Control-Allow-Origin" := "*"]> ∅)).

(** The headers after the switch to the event stream (lines 105-110). *)
Definition event_stream_headers (h : gmap string string) : gmap string string :=
  <["Access-Control-Allow-Headers" := "Content-Type"]>
    (<["Access-Control-Allow-Methods" := "GET, POST, OPTIONS"]>
       (<["Access-Control-Allow-Origin" := "*"]>
          (<["Connection" := "keep-alive"]>
             (<["Cache-Control" := "no-cache"]>
                (<["Content-Type" := "text/event-stream"]> h))))).

Definition bad_request : val :=
  VObj [("error", VStr "Bad request");
        ("message", VStr "Missing required fields: model and messages")].

Definition api_request_failed_body (errorText : string) : val :=
  VObj [("error", VStr "API request failed"); ("message", VStr errorText)].

(** The defaults of the payload, as the specification lists them. *)
Definition defaults : list (string * val) :=
  [("temperature", VNum num_0_6); ("top_p", VNum num_1); ("top_k", VNum num_40);
   ("max_tokens", VNum num_8192); ("presence_penalty", VNum num_0);
   ("frequency_penalty", VNum num_0); ("stream", VBool false)].

(** A field that the caller left out or supplied as zero. *)
Definition absent_or_zero (v : val) : Prop :=
  v = VUndef \/ exists sign, v = VNum (S754_zero sign).

(** The terminal error event in the words of the specification: the bytes of
    [data: {"error": "Streaming interrupted"}] and a blank line. *)
Definition terminal_event : list byte :=
  [100; 97; 116; 97; 58; 32; 123; 34; 101; 114; 114; 111; 114; 34; 58; 32; 34;
   83; 116; 114; 101; 97; 109; 105; 110; 103; 32; 105; 110; 116; 101; 114; 114;
   117; 112; 116; 101; 100; 34; 125; 10; 10].

(** *** The course of an invocation *)

(** The world in which the handler starts its work on a POST request. *)
Definition ready (w : world) : Prop :=
  headers w = cors_headers /\ statusCode w = 200 /\ written w = [] /\
  json_body w = None /\ ended w = false /\ upstream_calls w = [].

(** The payload that [serve] builds from the body of the request (lines
    60-78). *)
Definition payload_of (b : val) : result (list (string * val)) :=
  add_tools
    (fireworksPayload (prop b "model") (prop b "messages") (prop b "temperature")
       (prop b "top_p") (prop b "top_k") (prop b "max_tokens")
       (prop b "presence_penalty") (prop b "frequency_penalty") (prop b "stream"))
    (prop b "tools") (prop b "tool_choice").

(** The request that [forward] sends. *)
Definition upstream_request (apiKey : string) (payload : list (string * val))
    (stream : val) : fetch_request :=
  {| url := endpoint; fetch_method := "POST";
     fetch_headers :=
       if truthy stream
       then (fireworksHeaders apiKey ++ [("Accept", "text/event-stream")])%list
       else fireworksHeaders apiKey;
     fetch_body := VObj payload |}.

(** The strings that the relay loop writes for the reads [reads], starting
    with the decoder in state [d]. *)
Fixpoint relay_texts (d : decoder) (reads : list (list byte)) : list text :=
  match reads with
  | [] => []
  | value :: rest =>
      let '(d', chunk) := decode d value in chunk :: relay_texts d' rest
  end.

(** What is written once the reads have ended. *)
Definition closing (last : read_end) : list (list byte) :=
  match last with
  | EndOfData => []
  | ReadFails _ => [code_points interrupted_event]
  end.

(** *** Well-formed text *)

(** A string of scalar values: what well-formed UTF-8 decodes to. *)
Definition scalars (t : text) : bool := forallb scalar t.

Definition starts_with_BOM (t : text) : bool :=
  match t with
  | c :: _ => c =? BOM
  | [] => false
  end.

(** A chunk that is well-formed UTF-8 by itself: it begins and ends on a
    character boundary. *)
Definition whole (chunk : list byte) : Prop :=
  exists t, scalars t = true /\ chunk = encode t.

(** The output of a decoder that has or has not yet emitted a code point. *)
Definition strip_mark (seen : bool) (out : text) : text :=
  if seen then out
  else match out with
       | c :: rest => if c =? BOM then rest else out
       | [] => []
       end.

(** *** The claims that fail, as they are stated *)

(** C1 as stated: the writes are the chunks. *)
Definition relays_chunks_unchanged (env : Env) (req : Request)
    (rq : fetch_request) (r : upstream_response) (cs : list (list byte)) : Prop :=
  valid env req ->
  streaming req = true ->
  upstream_calls (run env req) = [rq] ->
  fetch env rq = Responded r ->
  ok r = true ->
  body_of r = Some {| chunks := cs; finish := EndOfData |} ->
  written (run env req) = cs /\ ended (run env req) = true.

(** C4 as stated: the writes are the chunks read before the failure, then
    the terminal event. *)
Definition relays_chunks_then_event (env : Env) (req : Request)
    (rq : fetch_request) (r : upstream_response) (cs : list (list byte))
    (e : exn) : Prop :=
  valid env req ->
  streaming req = true ->
  upstream_calls (run env req) = [rq] ->
  fetch env rq = Responded r ->
  ok r = true ->
  body_of r = Some {| chunks := cs; finish := ReadFails e |} ->
  written (run env req) = (cs ++ [terminal_event])%list /\
  ended (run env req) = true.

(** A value that is there and is not an empty string or an empty sequence. *)
Definition non_empty (v : val) : bool :=
  match v with
  | VUndef | VNull => false
  | VStr s => negb (String.eqb s "")
  | VArr elems => match elems with [] => false | _ => true end
  | _ => true
  end.

(** C6 as stated: a body that lacks a non-empty [model] or a non-empty
    [messages] is answered with 400 and no upstream call. *)
Definition rejects_empty_fields (env : Env) (req : Request) : Prop :=
  method req = "POST" ->
  api_key_present env = true ->
  non_empty (prop (body req) "model") = false \/
  non_empty (prop (body req) "messages") = false ->
  statusCode (run env req) = 400 /\
  json_body (run env req) = Some bad_request /\
  upstream_calls (run env req) = [].

(** *** The handler without the reflection instrumentation

    [serve] with the detection and the request log (lines 41-57) taken out
    and the logs of the response (lines 133-138 and 171-189) switched off,
    for comparison with [serve]. *)

Definition serve_unlogged (env : Env) (req : Request) : M unit :=
  (match FIREWORKS_API_KEY env with
   | None | Some "" =>
       console_error "FIREWORKS_API_KEY environment variable not set" [] ;;
       res_status 500 ;;
       res_json (obj [("error", "Server configuration error");
                      ("message", "API key not configured. Please check server environment variables.")])
   | Some apiKey =>
       (if nullish (body req) then
          throw (TypeError ("Cannot destructure property 'model' of 'req.body' as it is "
                            ++ nullish_name (body req) ++ "."))
        else ret tt) ;;
       if negb (truthy (prop (body req) "model")) ||
          negb (truthy (prop (body req) "messages")) then
         console_error "Missing required fields in request:"
           [("model", ABool (truthy (prop (body req) "model")));
            ("messages", ABool (truthy (prop (body req) "messages")))] ;;
         res_status 400 ;;
         res_json (obj [("error", "Bad request");
                        ("message", "Missing required fields: model and messages")])
       else
         payload <- lift (add_tools
                            (fireworksPayload
                               (prop (body req) "model") (prop (body req) "messages")
                               (prop (body req) "temperature") (prop (body req) "top_p")
                               (prop (body req) "top_k") (prop (body req) "max_tokens")
                               (prop (body req) "presence_penalty")
                               (prop (body req) "frequency_penalty")
                               (prop (body req) "stream"))
                            (prop (body req) "tools") (prop (body req) "tool_choice")) ;;
         forward env apiKey false payload (prop (body req) "stream")
   end)%M.

Definition handler_unlogged (env : Env) (req : Request) : M unit :=
  (setHeader "Access-Control-Allow-Origin" "*" ;;
   setHeader "Access-Control-Allow-Methods" "GET, POST, OPTIONS" ;;
   setHeader "Access-Control-Allow-Headers" "Content-Type, Authorization" ;;
   if String.eqb (method req) "OPTIONS" then
     res_status 200 ;; res_end
   else if negb (String.eqb (method req) "POST") then
     res_status 405 ;;
     res_json (obj [("error", "Method not allowed")])
   else
     try_catch (serve_unlogged env req) internal_server_error)%M.

Definition run_unlogged (env : Env) (req : Request) : world :=
  snd (handler_unlogged env req initial).

(** What a caller and the upstream can observe of an invocation: all of the
    world but the console. *)
Definition observable (w : world)
  : gmap string string * Z * list (list byte) * option val * bool * list fetch_request :=
  (headers w, statusCode w, written w, json_body w, ended w, upstream_calls w).

(** A document whose [choices[0].message.content] is a string or falsy, as
    a chat completion has it. *)
Definition textual (data : val) : Prop :=
  exists content,
    response_content data = Ok content /\
    (truthy content = false \/ exists s, content = VStr s).

(** The logs of the request do not throw. *)
Definition request_logged (req : Request) : Prop :=
  exists cod preview,
    hasAdvancedCoD (prop (body req) "messages") = Ok cod /\
    lastMessagePreview (prop (body req) "messages") = Ok preview.

(** Every document that the upstream returns is [textual]. *)
Definition upstream_textual (env : Env) : Prop :=
  forall rq r data,
    fetch env rq = Responded r -> json_of r = Ok data -> textual data.

End Terms.

(** ** Sample inputs *)

Module Samples.
Import JS UTF8 Http Chat Terms.

Definition user_message (content : string) : val :=
  VObj [("role", VStr "user"); ("content", VStr content)].

Definition model_name : val :=
  VStr "accounts/fireworks/models/llama-v3p1-8b-instruct".

Definition chat_body (messages : list val) (more : list (string * val)) : val :=
  VObj ([("model", model_name); ("messages", VArr messages)] ++ more)%list.

Definition post (b : val) : Request := {| method := "POST"; body := b |}.

(** An upstream that gives the same answer to every request. *)
Definition answering (r : upstream_response) : Env :=
  {| FIREWORKS_API_KEY := Some "fw_3ZkT"; fetch := fun _ => Responded r |}.

Definition unreachable : fetch_request -> fetch_outcome :=
  fun _ => Rejected (NetworkError "fetch failed").

Definition delete_request : Request := {| method := "DELETE"; body := VUndef |}.

Definition no_credential : Env :=
  {| FIREWORKS_API_KEY := None; fetch := unreachable |}.

Definition completion (content : val) : val :=
  VObj [("choices",
         VArr [VObj [("index", VNum num_0);
                     ("message", VObj [("role", VStr "assistant"); ("content", content)])]])].

Definition json_response (code : Z) (data : val) : upstream_response :=
  {| status := code; text_of := Ok ""; json_of := Ok data; body_of := None |}.

Definition text_response (code : Z) (t : string) : upstream_response :=
  {| status := code; text_of := Ok t;
     json_of := Throw (SyntaxError "Unexpected token in JSON"); body_of := None |}.

Definition stream_response_of (reads : list (list byte)) (last : read_end)
  : upstream_response :=
  {| status := 200; text_of := Ok ""; json_of := Throw (SyntaxError "Unexpected token d in JSON");
     body_of := Some {| chunks := reads; finish := last |} |}.

(** A request whose [model] is the empty string. *)
Definition empty_model : Request :=
  post (VObj [("model", VStr ""); ("messages", VArr [user_message "hi"])]).

(** The payload sent for [chat_body messages []] with [stream] set to [s]. *)
Definition default_payload (messages : list val) (s : bool) : val :=
  VObj [("model", model_name); ("messages", VArr messages);
        ("temperature", VNum num_0_6); ("top_p", VNum num_1); ("top_k", VNum num_40);
        ("max_tokens", VNum num_8192); ("presence_penalty", VNum num_0);
        ("frequency_penalty", VNum num_0); ("stream", VBool s)].

Definition sent_buffered (messages : list val) : fetch_request :=
  {| url := endpoint; fetch_method := "POST";
     fetch_headers := [("Authorization", "Bearer fw_3ZkT");
                       ("Content-Type", "application/json")];
     fetch_body := default_payload messages false |}.

Definition sent_streaming (messages : list val) : fetch_request :=
  {| url := endpoint; fetch_method := "POST";
     fetch_headers := [("Authorization", "Bearer fw_3ZkT");
                       ("Content-Type", "application/json");
                       ("Accept", "text/event-stream")];
     fetch_body := default_payload messages true |}.

Definition hello_stream : Request :=
  post (chat_body [user_message "Hello"] [("stream", VBool true)]).

(** A request that asks for [temperature: 0] and [max_tokens: -0]. *)
Definition zero_temperature : Request :=
  post (chat_body [user_message "Hello"]
          [("temperature", VNum num_0); ("max_tokens", VNum (S754_zero true))]).

Definition too_many_requests : upstream_response :=
  text_response 429 "rate limit exceeded".

(** Two requests that differ only in the words [Chain of Draft]. *)
Definition plain_question : Request :=
  post (chat_body [user_message "What is 17 * 23?"] []).

Definition draft_question : Request :=
  post (chat_body [user_message "What is 17 * 23? Chain of Draft"] []).

(** A completion whose content is a list of parts, not a string. *)
Definition parts_completion : val :=
  completion (VArr [VObj [("type", VStr "text"); ("text", VStr "391")]]).

(** A request whose message content is a list of parts. *)
Definition parts_question : Request :=
  post (chat_body
          [VObj [("role", VStr "user");
                 ("content", VArr [VObj [("type", VStr "text");
                                         ("text", VStr "What is 17 * 23?")]])]]
          []).

Definition internal_error (m : string) : val :=
  VObj [("error", VStr "Internal server error"); ("message", VStr m)].

(** [data: caf\u00e9] and a blank line, read in two chunks that split the
    two bytes of the last letter. *)
Definition cafe_text : text := [100; 97; 116; 97; 58; 32; 99; 97; 102; 0xE9; 10; 10].

Definition cafe_chunks : list (list byte) :=
  [[100; 97; 116; 97; 58; 32; 99; 97; 102; 0xC3]; [0xA9; 10; 10]].

(** [f\u00fcr] in ISO-8859-1: the byte [FC] is not UTF-8. *)
Definition latin1_chunks : list (list byte) := [[0x66; 0xFC; 0x72]].

Definition connection_reset : exn := NetworkError "terminated".

(** The first of [cafe_chunks] alone: the read after it fails in the middle
    of a character. *)
Definition cut_chunks : list (list byte) :=
  [[100; 97; 116; 97; 58; 32; 99; 97; 102; 0xC3]].

End Samples.

(** ** The courses of an invocation *)

Module Courses.
Import JS UTF8 Http Chat Terms Samples.

(** *** The documents of the handler *)

Definition method_not_allowed_body : val :=
  VObj [("error", VStr "Method not allowed")].

Definition configuration_error_body : val :=
  VObj [("error", VStr "Server configuration error");
        ("message", VStr "API key not configured. Please check server environment variables.")].

Definition no_body_body : val :=
  VObj [("error", VStr "No response body from API")].

(** The document of the outer [catch] for the error [e]. *)
Definition internal_error_body (e : exn) : val :=
  VObj [("error", VStr "Internal server error"); ("message", VStr (message e))].

(** A document with a field [error] that is a string. *)
Definition error_document (v : val) : Prop :=
  exists fields text, v = VObj fields /\ lookup_field "error" fields = VStr text.

(** *** The response at the end of an invocation *)

(** The response [w] is ended, with the headers [h], the status [code], the
    writes [ws] and the JSON document [doc]. *)
Definition outcome (w : world) (h : gmap string string) (code : Z)
    (ws : list (list byte)) (doc : option val) : Prop :=
  headers w = h /\ statusCode w = code /\ written w = ws /\
  json_body w = doc /\ ended w = true.

(** Whether the logging of lines 172-189 throws on the document [data]. *)
Definition analysis_of (cod : bool) (data : val) : result unit :=
  fst (response_analysis cod data initial).

(** The ways in which [forward] ends, [w] being the world at its end and
    [answer] the outcome of its call of [fetch]. *)
Definition forwarded (answer : fetch_outcome) (cod : bool) (stream : val)
    (w : world) : Prop :=
  match answer with
  | Rejected e => outcome w cors_headers 500 [] (Some (internal_error_body e))
  | Responded r =>
      if negb (ok r) then
        match text_of r with
        | Ok errorText =>
            outcome w cors_headers (status r) [] (Some (api_request_failed_body errorText))
        | Throw e => outcome w cors_headers 500 [] (Some (internal_error_body e))
        end
      else if truthy stream then
        match body_of r with
        | None =>
            outcome w (event_stream_headers cors_headers) 500 [] (Some no_body_body)
        | Some s =>
            outcome w (event_stream_headers cors_headers) 200
              (map encode (relay_texts new_TextDecoder (chunks s)) ++ closing (finish s))%list
              None
        end
      else
        match json_of r with
        | Throw e => outcome w cors_headers 500 [] (Some (internal_error_body e))
        | Ok data =>
            match analysis_of cod data with
            | Throw e => outcome w cors_headers 500 [] (Some (internal_error_body e))
            | Ok _ => outcome w cors_headers 200 [] (Some data)
            end
        end
  end.

(** The ways in which an invocation ends. *)
Definition course (env : Env) (req : Request) (w : world) : Prop :=
  if String.eqb (method req) "OPTIONS" then
    outcome w cors_headers 200 [] None /\ upstream_calls w = []
  else if negb (String.eqb (method req) "POST") then
    outcome w cors_headers 405 [] (Some method_not_allowed_body) /\ upstream_calls w = []
  else if negb (api_key_present env) then
    outcome w cors_headers 500 [] (Some configuration_error_body) /\ upstream_calls w = []
  else if nullish (body req) then
    (exists e, outcome w cors_headers 500 [] (Some (internal_error_body e))) /\
    upstream_calls w = []
  else if negb (truthy (prop (body req) "model")) ||
          negb (truthy (prop (body req) "messages")) then
    outcome w cors_headers 400 [] (Some bad_request) /\ upstream_calls w = []
  else
    (exists e,
       (hasAdvancedCoD (prop (body req) "messages") = Throw e \/
        toolsEnabled (prop (body req) "tools") = Throw e \/
        lastMessagePreview (prop (body req) "messages") = Throw e) /\
       outcome w cors_headers 500 [] (Some (internal_error_body e)) /\
       upstream_calls w = []) \/
    (exists k cod payload,
       FIREWORKS_API_KEY env = Some k /\
       hasAdvancedCoD (prop (body req) "messages") = Ok cod /\
       payload_of (body req) = Ok payload /\
       upstream_calls w = [upstream_request k payload (prop (body req) "stream")] /\
       forwarded (fetch env (upstream_request k payload (prop (body req) "stream")))
         cod (prop (body req) "stream") w).

(** *** The text decoder on arbitrary bytes *)

Definition octet (b : Z) : bool := in_range 0 255 b.

(** Every chunk of a body is a list of bytes. *)
Definition octets (reads : list (list byte)) : bool := forallb (forallb octet) reads.

(** The states that the UTF-8 decoder can be in between two bytes: the bits
    collected so far can still be completed to a scalar value, and to nothing
    else. *)
Definition pending (st : utf8_state) : Prop :=
  st = utf8_initial \/
  (lower_boundary st = 0x80 /\ upper_boundary st = 0xBF /\
   ((bytes_needed st = 1 /\ bytes_seen st = 0 /\ 2 <= code_point st <= 31) \/
    (bytes_needed st = 2 /\ bytes_seen st = 1 /\
     (32 <= code_point st <= 863 \/ 896 <= code_point st <= 1023)) \/
    (bytes_needed st = 3 /\ bytes_seen st = 1 /\ 16 <= code_point st <= 271) \/
    (bytes_needed st = 3 /\ bytes_seen st = 2 /\ 1024 <= code_point st <= 17407))) \/
  (bytes_needed st = 2 /\ bytes_seen st = 0 /\ 0 <= code_point st <= 15 /\
   lower_boundary st = (if code_point st =? 0 then 0xA0 else 0x80) /\
   upper_boundary st = (if code_point st =? 13 then 0x9F else 0xBF)) \/
  (bytes_needed st = 3 /\ bytes_seen st = 0 /\ 0 <= code_point st <= 4 /\
   lower_boundary st = (if code_point st =? 0 then 0x90 else 0x80) /\
   upper_boundary st = (if code_point st =? 4 then 0x8F else 0xBF)).

(** [needle] occurs in [hay]. *)
Definition occurs (needle hay : string) : Prop :=
  exists before after, hay = before ++ needle ++ after.

(** *** More sample inputs *)

Definition options_request : Request :=
  {| method := "OPTIONS"; body := VUndef |}.

(** An environment with the credential whose upstream cannot be reached. *)
Definition offline : Env :=
  {| FIREWORKS_API_KEY := Some "fw_3ZkT"; fetch := unreachable |}.

Definition hello : Request := post (chat_body [user_message "Hello"] []).

Definition greeting : val := completion (VStr "Hello! How can I help?").

(** A response with status 200 whose body is not JSON. *)
Definition not_json : upstream_response :=
  {| status := 200; text_of := Ok "<html>"; body_of := None;
     json_of := Throw (SyntaxError "Unexpected token '<'") |}.

(** A response with status 502 whose body cannot be read. *)
Definition broken_failure : upstream_response :=
  {| status := 502; text_of := Throw (NetworkError "terminated"); body_of := None;
     json_of := Throw (NetworkError "terminated") |}.

Definition weather_tool : val :=
  VObj [("type", VStr "function");
        ("function", VObj [("name", VStr "get_weather")])].

(** A request with one tool and a choice of tool. *)
Definition with_tools : Request :=
  post (chat_body [user_message "Hello"]
          [("tools", VArr [weather_tool]); ("tool_choice", VStr "auto")]).

Definition sent_with_tools : fetch_request :=
  {| url := endpoint; fetch_method := "POST";
     fetch_headers := [("Authorization", "Bearer fw_3ZkT");
                       ("Content-Type", "application/json")];
     fetch_body :=
       VObj [("model", model_name); ("messages", VArr [user_message "Hello"]);
             ("temperature", VNum num_0_6); ("top_p", VNum num_1);
             ("top_k", VNum num_40); ("max_tokens", VNum num_8192);
             ("presence_penalty", VNum num_0); ("frequency_penalty", VNum num_0);
             ("stream", VBool false);
             ("tools", VArr [weather_tool]); ("tool_choice", VStr "auto")] |}.

(** A request with a choice of tool and an empty list of tools. *)
Definition choice_without_tools : Request :=
  post (chat_body [user_message "Hello"]
          [("tools", VArr []); ("tool_choice", VStr "auto")]).

(** A request whose [messages] are a string. *)
Definition messages_as_text : Request :=
  post (VObj [("model", model_name); ("messages", VStr "Hello")]).

(** A request that asks for [temperature: 2] and [top_k: "all"]. *)
Definition num_2 : spec_float := S754_finite false 4503599627370496 (-51).

Definition hot : Request :=
  post (chat_body [user_message "Hello"]
          [("temperature", VNum num_2); ("top_k", VStr "all")]).

Definition sent_hot : fetch_request :=
  {| url := endpoint; fetch_method := "POST";
     fetch_headers := [("Authorization", "Bearer fw_3ZkT");
                       ("Content-Type", "application/json")];
     fetch_body :=
       VObj [("model", model_name); ("messages", VArr [user_message "Hello"]);
             ("temperature", VNum num_2); ("top_p", VNum num_1);
             ("top_k", VStr "all"); ("max_tokens", VNum num_8192);
             ("presence_penalty", VNum num_0); ("frequency_penalty", VNum num_0);
             ("stream", VBool false)] |}.

(** [hi] after a byte order mark, in one chunk. *)
Definition marked_chunks : list (list byte) := [[0xEF; 0xBB; 0xBF; 0x68; 0x69]].

(** Chunks of bytes that are not UTF-8. *)
Definition noise_chunks : list (list byte) :=
  [[0xFF; 0xC3]; [0x28; 0xED; 0xA0; 0x80]; []].

End Courses.

(** ** The decoder undoes the encoder *)

Module UTF8Facts.
Import UTF8.

Lemma lor_high_low k x n :
  0 <= n -> 0 <= x < 2 ^ n -> Z.lor (k * 2 ^ n) x = k * 2 ^ n + x.
Proof.
  intros Hn Hx.
  assert (H0 : Z.land (k * 2 ^ n) x = 0).
  { rewrite <- (Z.mod_small x (2 ^ n)) by lia.
    rewrite <- Z.land_ones by lia.
    rewrite (Z.land_comm x), Z.land_assoc, Z.land_ones by lia.
    rewrite Z.mod_mul by lia. apply Z.land_0_l. }
  pose proof (Z.add_lor_land (k * 2 ^ n) x). lia.
Qed.

Lemma lor_C0 x : 0 <= x < 64 -> Z.lor 0xC0 x = 192 + x.
Proof. intros H. apply (lor_high_low 3 x 6); lia. Qed.

Lemma lor_80 x : 0 <= x < 64 -> Z.lor 0x80 x = 128 + x.
Proof. intros H. apply (lor_high_low 2 x 6); lia. Qed.

Lemma lor_E0 x : 0 <= x < 16 -> Z.lor 0xE0 x = 224 + x.
Proof. intros H. apply (lor_high_low 14 x 4); lia. Qed.

Lemma lor_F0 x : 0 <= x < 8 -> Z.lor 0xF0 x = 240 + x.
Proof. intros H. apply (lor_high_low 30 x 3); lia. Qed.

Lemma shift_in cp b :
  Z.lor (Z.shiftl cp 6) (Z.land b 0x3F) = cp * 64 + b mod 64.
Proof.
  rewrite Z.shiftl_mul_pow2 by lia.
  change 0x3F with (Z.ones 6). rewrite Z.land_ones by lia.
  apply lor_high_low; [lia|]. apply Z.mod_pos_bound. lia.
Qed.

Lemma in_range_true lo hi b : lo <= b <= hi -> in_range lo hi b = true.
Proof. unfold in_range. lia. Qed.

Lemma in_range_false lo hi b : b < lo \/ hi < b -> in_range lo hi b = false.
Proof. unfold in_range. lia. Qed.

(** The bytes of the encoder, in arithmetic. *)
Lemma encode_code_point_arith c :
  0 <= c <= 0x10FFFF ->
  encode_code_point c =
    if c <=? 0x7F then [c]
    else if c <=? 0x7FF then [192 + c / 64; 128 + c mod 64]
    else if c <=? 0xFFFF then
      [224 + c / 4096; 128 + (c / 64) mod 64; 128 + c mod 64]
    else [240 + c / 262144; 128 + (c / 4096) mod 64; 128 + (c / 64) mod 64;
          128 + c mod 64].
Proof.
  intros Hc. unfold encode_code_point.
  change 0x3F with (Z.ones 6).
  rewrite !Z.land_ones, !Z.shiftr_div_pow2 by lia.
  change (2 ^ 6) with 64. change (2 ^ 12) with 4096. change (2 ^ 18) with 262144.
  destruct (c <=? 0x7F) eqn:H1; [reflexivity|].
  destruct (c <=? 0x7FF) eqn:H2.
  { rewrite lor_C0, lor_80; [reflexivity| |]; Z.div_mod_to_equations; lia. }
  destruct (c <=? 0xFFFF) eqn:H3.
  { rewrite lor_E0, !lor_80; [reflexivity| | |]; Z.div_mod_to_equations; lia. }
  rewrite lor_F0, !lor_80; [reflexivity| | | |]; Z.div_mod_to_equations; lia.
Qed.

(** The steps of the decoder on well-placed bytes. *)
Lemma step_ascii b :
  0 <= b <= 0x7F -> utf8_step utf8_initial b = (utf8_initial, [b]).
Proof.
  intros H. unfold utf8_step, lead. cbn [bytes_needed utf8_initial].
  change (0 =? 0) with true. cbv iota. rewrite in_range_true by lia. reflexivity.
Qed.

Lemma step_lead2 b :
  0xC2 <= b <= 0xDF ->
  utf8_step utf8_initial b =
    ({| code_point := b mod 32; bytes_seen := 0; bytes_needed := 1;
        lower_boundary := 0x80; upper_boundary := 0xBF |}, []).
Proof.
  intros H. unfold utf8_step, lead. cbn [bytes_needed utf8_initial].
  change (0 =? 0) with true. cbv iota.
  rewrite in_range_false, in_range_true by lia.
  change 0x1F with (Z.ones 5). rewrite Z.land_ones by lia. reflexivity.
Qed.

Lemma step_lead3 b :
  0xE0 <= b <= 0xEF ->
  utf8_step utf8_initial b =
    ({| code_point := b mod 16; bytes_seen := 0; bytes_needed := 2;
        lower_boundary := if b =? 0xE0 then 0xA0 else 0x80;
        upper_boundary := if b =? 0xED then 0x9F else 0xBF |}, []).
Proof.
  intros H. unfold utf8_step, lead. cbn [bytes_needed utf8_initial].
  change (0 =? 0) with true. cbv iota.
  rewrite !in_range_false, in_range_true by lia.
  change 0xF with (Z.ones 4). rewrite Z.land_ones by lia. reflexivity.
Qed.

Lemma step_lead4 b :
  0xF0 <= b <= 0xF4 ->
  utf8_step utf8_initial b =
    ({| code_point := b mod 8; bytes_seen := 0; bytes_needed := 3;
        lower_boundary := if b =? 0xF0 then 0x90 else 0x80;
        upper_boundary := if b =? 0xF4 then 0x8F else 0xBF |}, []).
Proof.
  intros H. unfold utf8_step, lead. cbn [bytes_needed utf8_initial].
  change (0 =? 0) with true. cbv iota.
  rewrite !in_range_false, in_range_true by lia.
  change 0x7 with (Z.ones 3). rewrite Z.land_ones by lia. reflexivity.
Qed.

Lemma step_continue st b :
  bytes_needed st <> 0 ->
  lower_boundary st <= b <= upper_boundary st ->
  utf8_step st b =
    if bytes_seen st + 1 =? bytes_needed st
    then (utf8_initial, [code_point st * 64 + b mod 64])
    else ({| code_point := code_point st * 64 + b mod 64;
             bytes_seen := bytes_seen st + 1; bytes_needed := bytes_needed st;
             lower_boundary := 0x80; upper_boundary := 0xBF |}, []).
Proof.
  intros Hn Hb. unfold utf8_step.
  apply Z.eqb_neq in Hn. rewrite Hn.
  rewrite in_range_true by assumption. cbn [negb].
  rewrite shift_in. reflexivity.
Qed.

Lemma scalar_spec c :
  scalar c = true <-> 0 <= c <= 0xD7FF \/ 0xE000 <= c <= 0x10FFFF.
Proof. unfold scalar, in_range. lia. Qed.

Ltac arith := Z.div_mod_to_equations; lia.

(** One code point through the encoder and back. *)
Lemma decode_encode_code_point c :
  scalar c = true ->
  utf8_run utf8_initial (encode_code_point c) = (utf8_initial, [c]).
Proof.
  intros Hs. apply scalar_spec in Hs.
  rewrite encode_code_point_arith by lia.
  destruct (c <=? 0x7F) eqn:H1.
  { cbn [utf8_run]. rewrite step_ascii by lia. reflexivity. }
  destruct (c <=? 0x7FF) eqn:H2.
  { cbn [utf8_run]. rewrite step_lead2 by arith.
    rewrite step_continue; cbn [bytes_needed bytes_seen code_point lower_boundary
                                upper_boundary]; [|lia|arith].
    change (0 + 1 =? 1) with true. cbv iota. cbn [app].
    do 3 f_equal. arith. }
  destruct (c <=? 0xFFFF) eqn:H3.
  { cbn [utf8_run]. rewrite step_lead3 by arith.
    rewrite step_continue; cbn [bytes_needed bytes_seen code_point lower_boundary
                                upper_boundary]; [|lia|].
    2:{ destruct (224 + c / 4096 =? 0xE0) eqn:E1;
        destruct (224 + c / 4096 =? 0xED) eqn:E2; arith. }
    change (0 + 1 =? 2) with false. cbv iota.
    rewrite step_continue; cbn [bytes_needed bytes_seen code_point lower_boundary
                                upper_boundary]; [|lia|arith].
    change (0 + 1 + 1 =? 2) with true. cbv iota. cbn [app].
    do 3 f_equal. arith. }
  cbn [utf8_run]. rewrite step_lead4 by arith.
  rewrite step_continue; cbn [bytes_needed bytes_seen code_point lower_boundary
                              upper_boundary]; [|lia|].
  2:{ destruct (240 + c / 262144 =? 0xF0) eqn:E1;
      destruct (240 + c / 262144 =? 0xF4) eqn:E2; arith. }
  change (0 + 1 =? 3) with false. cbv iota.
  rewrite step_continue; cbn [bytes_needed bytes_seen code_point lower_boundary
                              upper_boundary]; [|lia|arith].
  change (0 + 1 + 1 =? 3) with false. cbv iota.
  rewrite step_continue; cbn [bytes_needed bytes_seen code_point lower_boundary
                              upper_boundary]; [|lia|arith].
  change (0 + 1 + 1 + 1 =? 3) with true. cbv iota. cbn [app].
  do 3 f_equal. arith.
Qed.

Lemma utf8_run_app st (a b : list byte) :
  utf8_run st (a ++ b)%list =
    let '(st1, out1) := utf8_run st a in
    let '(st2, out2) := utf8_run st1 b in
    (st2, (out1 ++ out2)%list).
Proof.
  revert st. induction a as [|x a IH]; intros st; cbn [utf8_run app].
  - destruct (utf8_run st b). reflexivity.
  - destruct (utf8_step st x) as [st1 o1]. rewrite IH.
    destruct (utf8_run st1 a) as [st2 o2]. destruct (utf8_run st2 b) as [st3 o3].
    rewrite app_assoc. reflexivity.
Qed.

(** Well-formed UTF-8 decodes to the text it encodes and leaves the decoder
    in its initial state. *)
Lemma decode_encode t :
  forallb scalar t = true ->
  utf8_run utf8_initial (encode t) = (utf8_initial, t).
Proof.
  induction t as [|c t IH]; intros H; [reflexivity|].
  cbn [forallb] in H. apply andb_true_iff in H as [Hc Ht].
  unfold encode in *. cbn [flat_map]. rewrite utf8_run_app.
  rewrite decode_encode_code_point by assumption. rewrite IH by assumption.
  reflexivity.
Qed.

Lemma encode_app (a b : text) : encode (a ++ b)%list = (encode a ++ encode b)%list.
Proof. unfold encode. apply flat_map_app. Qed.

Lemma encode_concat (ts : list text) : encode (concat ts) = concat (map encode ts).
Proof.
  induction ts as [|t ts IH]; [reflexivity|].
  cbn [concat map]. rewrite encode_app, IH. reflexivity.
Qed.

Lemma forallb_concat {A} (p : A -> bool) (ls : list (list A)) :
  Forall (fun l => forallb p l = true) ls -> forallb p (concat ls) = true.
Proof.
  induction 1 as [|l ls Hl _ IH]; [reflexivity|].
  cbn [concat]. rewrite forallb_app, Hl, IH. reflexivity.
Qed.

(** The encoder is injective on text. *)
Lemma encode_injective a b :
  forallb scalar a = true -> forallb scalar b = true ->
  encode a = encode b -> a = b.
Proof.
  intros Ha Hb H. pose proof (decode_encode a Ha) as Da.
  rewrite H, (decode_encode b Hb) in Da. congruence.
Qed.

End UTF8Facts.

(** ** The handler, claim by claim *)

Module Facts.
Import JS UTF8 Http Chat Terms Samples.

(** *** Frames: what the parts of the handler leave alone *)

(** Unfolds the operations of the monad and reduces the projections of the
    world, sharing subterms. *)
Ltac msimpl :=
  lazy beta iota zeta delta
    [try_catch bind ret lift throw setHeader res_status res_json res_write
     res_end console_log console_error console_write do_fetch
     api_request_failed internal_server_error
     fst snd headers statusCode written json_body ended console
     upstream_calls negb orb andb initial] in *.

Lemma relay_spec cod reads last : forall d n w,
  fst (relay cod reads last d n w) =
    match last with EndOfData => Ok tt | ReadFails e => Throw e end /\
  headers (snd (relay cod reads last d n w)) = headers w /\
  statusCode (snd (relay cod reads last d n w)) = statusCode w /\
  written (snd (relay cod reads last d n w)) =
    (written w ++ map encode (relay_texts d reads))%list /\
  json_body (snd (relay cod reads last d n w)) = json_body w /\
  ended (snd (relay cod reads last d n w)) = ended w /\
  upstream_calls (snd (relay cod reads last d n w)) = upstream_calls w.
Proof.
  induction reads as [|value rest IH]; intros d n w.
  - destruct last; cbn; rewrite app_nil_r; repeat split.
  - cbn [relay relay_texts]. destruct (decode d value) as [d' chunk].
    destruct (cod && text_includes chunk (code_points "REFLECTION")); msimpl;
      match goal with |- context [relay cod rest last d' ?n' ?w'] =>
        destruct (IH d' n' w') as (H1 & H2 & H3 & H4 & H5 & H6 & H7) end;
      msimpl; rewrite H1, H2, H3, H4, H5, H6, H7; cbn [map];
      rewrite <- app_assoc; repeat split.
Qed.

Lemma response_analysis_frame cod data w :
  headers (snd (response_analysis cod data w)) = headers w /\
  statusCode (snd (response_analysis cod data w)) = statusCode w /\
  written (snd (response_analysis cod data w)) = written w /\
  json_body (snd (response_analysis cod data w)) = json_body w /\
  ended (snd (response_analysis cod data w)) = ended w /\
  upstream_calls (snd (response_analysis cod data w)) = upstream_calls w.
Proof.
  unfold response_analysis. destruct cod; [|cbn; repeat split].
  msimpl. destruct (response_content data) as [content|e]; [|cbn; repeat split].
  destruct (truthy content); [|cbn; repeat split].
  destruct content; cbn; repeat split.
Qed.

Lemma forward_calls env k cod payload stream w :
  upstream_calls (snd (try_catch (forward env k cod payload stream)
                         internal_server_error w)) =
  (upstream_calls w ++ [upstream_request k payload stream])%list.
Proof.
  unfold forward, upstream_request.
  destruct (truthy stream); msimpl;
    match goal with |- context [fetch env ?rq] => destruct (fetch env rq) as [e|r] end;
    msimpl; try reflexivity;
    destruct (ok r); msimpl;
    try (destruct (text_of r); msimpl; reflexivity).
  - unfold stream_response. msimpl. destruct (body_of r) as [s|]; msimpl; [|reflexivity].
    match goal with |- context [relay ?c ?rs ?l ?d ?n ?w'] =>
      destruct (relay_spec c rs l d n w') as (H1 & _ & _ & _ & _ & _ & H7);
      destruct (relay c rs l d n w') as [res w''] end.
    cbn [fst snd] in *. subst res. destruct (finish s); msimpl; rewrite H7; reflexivity.
  - destruct (json_of r) as [data|e]; msimpl; [|reflexivity].
    match goal with |- context [response_analysis ?c ?d ?w'] =>
      destruct (response_analysis_frame c d w') as (_ & _ & _ & _ & _ & H6);
      destruct (response_analysis c d w') as [res w''] end.
    cbn [snd] in H6. destruct res; msimpl; rewrite H6; reflexivity.
Qed.

(** *** From the entry of the handler to the upstream call *)

(** A valid request gets as far as the preparation of the upstream call:
    either the detection, the request log or the check of [tools] throws and
    the outer [catch] answers, or the call is made by [forward]. *)
Lemma run_valid env req :
  valid env req ->
  (exists e w0,
     ready w0 /\
     (hasAdvancedCoD (prop (body req) "messages") = Throw e \/
      toolsEnabled (prop (body req) "tools") = Throw e \/
      lastMessagePreview (prop (body req) "messages") = Throw e) /\
     run env req = snd (internal_server_error e w0)) \/
  (exists k cod payload w0,
     ready w0 /\
     FIREWORKS_API_KEY env = Some k /\
     hasAdvancedCoD (prop (body req) "messages") = Ok cod /\
     payload_of (body req) = Ok payload /\
     run env req =
       snd (try_catch (forward env k cod payload (prop (body req) "stream"))
              internal_server_error w0)).
Proof.
  intros (Hm & Hk & Hmodel & Hmsgs).
  unfold run, handler, serve, api_key_present, payload_of in *. rewrite Hm.
  change (String.eqb "POST" "OPTIONS") with false.
  change (String.eqb "POST" "POST") with true.
  destruct (FIREWORKS_API_KEY env) as [[|c k]|]; try discriminate.
  assert (Hb : nullish (body req) = false)
    by (destruct (body req); try reflexivity; discriminate).
  rewrite Hb, Hmodel, Hmsgs.
  msimpl.
  destruct (hasAdvancedCoD _) as [cod|e].
  2:{ left. eexists e, (Build_world _ _ _ _ _ _ _).
      split; [|split; [left; reflexivity|reflexivity]]. repeat split. }
  destruct (toolsEnabled _) as [enabled|e] eqn:Ht.
  2:{ left. eexists e, (Build_world _ _ _ _ _ _ _).
      split; [|split; [right; left; reflexivity|reflexivity]]. repeat split. }
  destruct (lastMessagePreview _) as [preview|e].
  2:{ left. eexists e, (Build_world _ _ _ _ _ _ _).
      split; [|split; [right; right; reflexivity|reflexivity]]. repeat split. }
  destruct (add_tools _ _ _) as [payload|e] eqn:Hp.
  2:{ exfalso. unfold add_tools in Hp. rewrite Ht in Hp. destruct enabled; discriminate. }
  right. eexists (String c k), cod, payload, (Build_world _ _ _ _ _ _ _).
  split; [|repeat split; reflexivity]. repeat split.
Qed.

Lemma run_called env req rq :
  valid env req ->
  upstream_calls (run env req) = [rq] ->
  exists k cod payload w0,
    ready w0 /\
    FIREWORKS_API_KEY env = Some k /\
    hasAdvancedCoD (prop (body req) "messages") = Ok cod /\
    payload_of (body req) = Ok payload /\
    rq = upstream_request k payload (prop (body req) "stream") /\
    run env req =
      snd (try_catch (forward env k cod payload (prop (body req) "stream"))
             internal_server_error w0).
Proof.
  intros Hv Hc.
  destruct (run_valid env req Hv)
    as [(e & w0 & Hr & _ & Hrun)|(k & cod & payload & w0 & Hr & Hk & Hcod & Hp & Hrun)].
  - rewrite Hrun in Hc. destruct Hr as (_ & _ & _ & _ & _ & Hu).
    msimpl. rewrite Hu in Hc. discriminate.
  - exists k, cod, payload, w0.
    rewrite Hrun, forward_calls in Hc.
    pose proof Hr as (_ & _ & _ & _ & _ & Hu).
    rewrite Hu in Hc. injection Hc as <-. repeat split; assumption || apply Hr.
Qed.

(** *** The gates before the upstream call *)

(** C8: a request whose method is neither POST nor OPTIONS is answered with
    status 405 and the body [{"error":"Method not allowed"}], and no upstream
    call is made. *)
Theorem method_not_allowed env req :
  method req <> "OPTIONS" ->
  method req <> "POST" ->
  statusCode (run env req) = 405 /\
  json_body (run env req) = Some (VObj [("error", VStr "Method not allowed")]) /\
  written (run env req) = [] /\
  ended (run env req) = true /\
  upstream_calls (run env req) = [].
Proof.
  intros H1 H2. apply String.eqb_neq in H1, H2.
  unfold run, handler. msimpl. rewrite H1, H2. msimpl.
  repeat split; reflexivity.
Qed.

Lemma method_not_allowed_witness :
  method delete_request <> "OPTIONS" /\ method delete_request <> "POST" /\
  statusCode (run no_credential delete_request) = 405 /\
  json_body (run no_credential delete_request) =
    Some (VObj [("error", VStr "Method not allowed")]) /\
  written (run no_credential delete_request) = [] /\
  ended (run no_credential delete_request) = true /\
  upstream_calls (run no_credential delete_request) = [].
Proof.
  assert (H1 : method delete_request <> "OPTIONS") by discriminate.
  assert (H2 : method delete_request <> "POST") by discriminate.
  exact (conj H1 (conj H2 (method_not_allowed no_credential delete_request H1 H2))).
Defined.

(** C10: the credential is checked before the fields.  A POST request made
    while the credential is absent (not set, or set to the empty string) is
    answered with status 500 and the configuration error body whatever its
    body holds, so never with 400, and no upstream call is made. *)
Theorem credential_checked_first env req :
  method req = "POST" ->
  api_key_present env = false ->
  statusCode (run env req) = 500 /\
  json_body (run env req) =
    Some (VObj [("error", VStr "Server configuration error");
                ("message", VStr "API key not configured. Please check server environment variables.")]) /\
  statusCode (run env req) <> 400 /\
  written (run env req) = [] /\
  ended (run env req) = true /\
  upstream_calls (run env req) = [].
Proof.
  intros Hm Hk. unfold run, handler, serve, api_key_present in *. rewrite Hm.
  change (String.eqb "POST" "OPTIONS") with false.
  change (String.eqb "POST" "POST") with true.
  destruct (FIREWORKS_API_KEY env) as [[|c k]|]; try discriminate;
    msimpl; repeat split; try reflexivity; discriminate.
Qed.

Lemma credential_checked_first_witness :
  method (post VNull) = "POST" /\ api_key_present no_credential = false /\
  statusCode (run no_credential (post VNull)) = 500 /\
  json_body (run no_credential (post VNull)) =
    Some (VObj [("error", VStr "Server configuration error");
                ("message", VStr "API key not configured. Please check server environment variables.")]) /\
  statusCode (run no_credential (post VNull)) <> 400 /\
  written (run no_credential (post VNull)) = [] /\
  ended (run no_credential (post VNull)) = true /\
  upstream_calls (run no_credential (post VNull)) = [].
Proof.
  exact (conj eq_refl (conj eq_refl
           (credential_checked_first no_credential (post VNull) eq_refl eq_refl))).
Defined.

(** C6, as amended: a POST request with the credential present whose body is
    not null or undefined and whose [model] or [messages] is absent or falsy
    (undefined, null, false, 0, NaN or the empty string) is answered with
    status 400 and the body [{"error":"Bad request","message":"Missing
    required fields: model and messages"}], and no upstream call is made. *)
Theorem missing_fields_rejected env req :
  method req = "POST" ->
  api_key_present env = true ->
  nullish (body req) = false ->
  truthy (prop (body req) "model") = false \/
  truthy (prop (body req) "messages") = false ->
  statusCode (run env req) = 400 /\
  json_body (run env req) = Some bad_request /\
  written (run env req) = [] /\
  ended (run env req) = true /\
  upstream_calls (run env req) = [].
Proof.
  intros Hm Hk Hb Hf. unfold run, handler, serve, api_key_present in *. rewrite Hm.
  change (String.eqb "POST" "OPTIONS") with false.
  change (String.eqb "POST" "POST") with true.
  destruct (FIREWORKS_API_KEY env) as [[|c k]|]; try discriminate.
  rewrite Hb.
  assert (Hg : negb (truthy (prop (body req) "model")) ||
               negb (truthy (prop (body req) "messages")) = true).
  { destruct Hf as [-> | ->]; [reflexivity | apply orb_true_r]. }
  rewrite Hg. msimpl. repeat split; reflexivity.
Qed.

Lemma missing_fields_rejected_witness :
  method empty_model = "POST" /\
  api_key_present (answering (json_response 200 VNull)) = true /\
  nullish (body empty_model) = false /\
  (truthy (prop (body empty_model) "model") = false \/
   truthy (prop (body empty_model) "messages") = false) /\
  statusCode (run (answering (json_response 200 VNull)) empty_model) = 400 /\
  json_body (run (answering (json_response 200 VNull)) empty_model) = Some bad_request /\
  written (run (answering (json_response 200 VNull)) empty_model) = [] /\
  ended (run (answering (json_response 200 VNull)) empty_model) = true /\
  upstream_calls (run (answering (json_response 200 VNull)) empty_model) = [].
Proof.
  exact (conj eq_refl (conj eq_refl (conj eq_refl (conj (or_introl eq_refl)
           (missing_fields_rejected (answering (json_response 200 VNull)) empty_model
              eq_refl eq_refl eq_refl (or_introl eq_refl)))))).
Defined.

(** C6 as stated fails: an empty [messages] array is not a non-empty
    [messages], yet it passes the check of line 32 and the request goes
    upstream. *)
Lemma empty_messages_forwarded :
  ~ rejects_empty_fields
      (answering (json_response 200 (completion (VStr "Hello."))))
      (post (chat_body [] [])).
Proof.
  intros H. destruct H as (H400 & _); [reflexivity | reflexivity | right; reflexivity |].
  vm_compute in H400. discriminate.
Qed.

(** *** The paths of [forward] *)

Lemma forward_failed env k cod payload stream w r T :
  fetch env (upstream_request k payload stream) = Responded r ->
  ok r = false ->
  text_of r = Ok T ->
  let w' := snd (try_catch (forward env k cod payload stream)
                   internal_server_error w) in
  headers w' = headers w /\ statusCode w' = status r /\
  written w' = written w /\ json_body w' = Some (api_request_failed_body T) /\
  ended w' = true.
Proof.
  intros Hf Hok HT. unfold forward, upstream_request in *.
  destruct (truthy stream); msimpl; rewrite Hf; msimpl; rewrite Hok; msimpl;
    rewrite HT; msimpl; repeat split.
Qed.

Lemma forward_streamed env k cod payload stream w r s :
  truthy stream = true ->
  fetch env (upstream_request k payload stream) = Responded r ->
  ok r = true ->
  body_of r = Some s ->
  let w' := snd (try_catch (forward env k cod payload stream)
                   internal_server_error w) in
  headers w' = event_stream_headers (headers w) /\
  statusCode w' = statusCode w /\
  written w' = (written w ++ map encode (relay_texts new_TextDecoder (chunks s))
                  ++ closing (finish s))%list /\
  json_body w' = json_body w /\
  ended w' = true.
Proof.
  intros Hs Hf Hok Hb. unfold forward, upstream_request in *. rewrite Hs in *.
  msimpl. rewrite Hf. msimpl. rewrite Hok. unfold stream_response. msimpl.
  rewrite Hb. msimpl.
  match goal with |- context [relay ?c ?rs ?l ?d ?n ?w'] =>
    destruct (relay_spec c rs l d n w') as (H1 & H2 & H3 & H4 & H5 & H6 & H7);
    destruct (relay c rs l d n w') as [res w''] end.
  msimpl. subst res.
  destruct (finish s); msimpl; rewrite H2, H3, H4, H5; unfold closing;
    rewrite ?app_nil_r, <- ?app_assoc; repeat split.
Qed.

Lemma forward_no_body env k cod payload stream w r :
  truthy stream = true ->
  fetch env (upstream_request k payload stream) = Responded r ->
  ok r = true ->
  body_of r = None ->
  let w' := snd (try_catch (forward env k cod payload stream)
                   internal_server_error w) in
  headers w' = event_stream_headers (headers w) /\
  statusCode w' = 500 /\
  written w' = written w /\
  json_body w' = Some (VObj [("error", VStr "No response body from API")]) /\
  ended w' = true.
Proof.
  intros Hs Hf Hok Hb. unfold forward, upstream_request in *. rewrite Hs in *.
  msimpl. rewrite Hf. msimpl. rewrite Hok. unfold stream_response. msimpl.
  rewrite Hb. msimpl. repeat split.
Qed.

Lemma forward_buffered env k cod payload stream w r data :
  truthy stream = false ->
  fetch env (upstream_request k payload stream) = Responded r ->
  ok r = true ->
  json_of r = Ok data ->
  fst (response_analysis cod data w) = Ok tt ->
  let w' := snd (try_catch (forward env k cod payload stream)
                   internal_server_error w) in
  headers w' = headers w /\ statusCode w' = 200 /\
  written w' = written w /\ json_body w' = Some data /\
  ended w' = true.
Proof.
  intros Hs Hf Hok Hj Ha. unfold forward, upstream_request in *. rewrite Hs in *.
  msimpl. rewrite Hf. msimpl. rewrite Hok. msimpl. rewrite Hj. msimpl.
  match goal with |- context [response_analysis ?c ?d ?w'] =>
    destruct (response_analysis_frame c d w') as (H1 & H2 & H3 & H4 & H5 & H6);
    assert (Ha' : fst (response_analysis c d w') = Ok tt);
    [| destruct (response_analysis c d w') as [res w''] ] end.
  { revert Ha. unfold response_analysis. destruct cod; [|reflexivity].
    msimpl. destruct (response_content data) as [content|]; [|discriminate].
    destruct (truthy content); [|reflexivity].
    destruct content; try discriminate. reflexivity. }
  msimpl. subst res. msimpl. rewrite H1, H3. repeat split.
Qed.

(** *** The relay of an upstream failure *)

(** C5: when the upstream answers a valid POST request, streaming or not,
    with a status [S] outside 200-299 and the body text [T], the handler
    answers with status [S] and the body [{"error":"API request
    failed","message":T}]; nothing was written to the response before, and
    the headers are still the ones set on entry, with no event-stream
    header among them. *)
Theorem upstream_failure_relayed env req rq r T :
  valid env req ->
  upstream_calls (run env req) = [rq] ->
  fetch env rq = Responded r ->
  ok r = false ->
  text_of r = Ok T ->
  statusCode (run env req) = status r /\
  json_body (run env req) = Some (api_request_failed_body T) /\
  written (run env req) = [] /\
  ended (run env req) = true /\
  headers (run env req) = cors_headers /\
  headers (run env req) !! "Content-Type" = None.
Proof.
  intros Hv Hc Hf Hok HT.
  destruct (run_called env req rq Hv Hc)
    as (k & cod & payload & w0 & Hr & _ & _ & _ & -> & ->).
  destruct (forward_failed env k cod payload _ w0 r T Hf Hok HT)
    as (H1 & H2 & H3 & H4 & H5).
  destruct Hr as (Hh & _ & Hw & _).
  rewrite H1, H2, H3, H4, H5, Hh, Hw. repeat split.
Qed.

Lemma upstream_failure_relayed_witness :
  valid (answering too_many_requests) hello_stream /\
  upstream_calls (run (answering too_many_requests) hello_stream) =
    [sent_streaming [user_message "Hello"]] /\
  fetch (answering too_many_requests) (sent_streaming [user_message "Hello"]) =
    Responded too_many_requests /\
  ok too_many_requests = false /\
  text_of too_many_requests = Ok "rate limit exceeded" /\
  statusCode (run (answering too_many_requests) hello_stream) = 429 /\
  json_body (run (answering too_many_requests) hello_stream) =
    Some (api_request_failed_body "rate limit exceeded") /\
  written (run (answering too_many_requests) hello_stream) = [] /\
  ended (run (answering too_many_requests) hello_stream) = true /\
  headers (run (answering too_many_requests) hello_stream) = cors_headers /\
  headers (run (answering too_many_requests) hello_stream) !! "Content-Type" = None.
Proof.
  assert (Hv : valid (answering too_many_requests) hello_stream)
    by (repeat split; reflexivity).
  assert (Hc : upstream_calls (run (answering too_many_requests) hello_stream) =
               [sent_streaming [user_message "Hello"]])
    by (vm_compute; reflexivity).
  exact (conj Hv (conj Hc (conj eq_refl (conj eq_refl (conj eq_refl
    (upstream_failure_relayed _ _ _ _ _ Hv Hc eq_refl eq_refl eq_refl)))))).
Defined.

(** *** The CORS headers *)

(** C7 fails on the streamed response: once the upstream has accepted a
    streaming request, line 110 sets [Access-Control-Allow-Headers] again, to
    [Content-Type] alone. *)
Theorem stream_switch_drops_authorization env req rq r :
  valid env req ->
  streaming req = true ->
  upstream_calls (run env req) = [rq] ->
  fetch env rq = Responded r ->
  ok r = true ->
  headers (run env req) !! "Access-Control-Allow-Origin" = Some "*" /\
  headers (run env req) !! "Access-Control-Allow-Methods" = Some "GET, POST, OPTIONS" /\
  headers (run env req) !! "Access-Control-Allow-Headers" = Some "Content-Type" /\
  headers (run env req) !! "Content-Type" = Some "text/event-stream".
Proof.
  intros Hv Hs Hc Hf Hok.
  destruct (run_called env req rq Hv Hc)
    as (k & cod & payload & w0 & Hr & _ & _ & _ & -> & ->).
  destruct Hr as (Hh & _).
  assert (H : headers (snd (try_catch
                (forward env k cod payload (prop (body req) "stream"))
                internal_server_error w0)) = event_stream_headers cors_headers).
  { rewrite <- Hh. destruct (body_of r) as [s|] eqn:Hb.
    - apply (forward_streamed env k cod payload _ w0 r s Hs Hf Hok Hb).
    - apply (forward_no_body env k cod payload _ w0 r Hs Hf Hok Hb). }
  rewrite H. repeat split; reflexivity.
Qed.

Lemma stream_switch_drops_authorization_witness :
  valid (answering (stream_response_of [] EndOfData)) hello_stream /\
  streaming hello_stream = true /\
  upstream_calls (run (answering (stream_response_of [] EndOfData)) hello_stream) =
    [sent_streaming [user_message "Hello"]] /\
  fetch (answering (stream_response_of [] EndOfData))
    (sent_streaming [user_message "Hello"]) =
    Responded (stream_response_of [] EndOfData) /\
  ok (stream_response_of [] EndOfData) = true /\
  headers (run (answering (stream_response_of [] EndOfData)) hello_stream)
    !! "Access-Control-Allow-Origin" = Some "*" /\
  headers (run (answering (stream_response_of [] EndOfData)) hello_stream)
    !! "Access-Control-Allow-Methods" = Some "GET, POST, OPTIONS" /\
  headers (run (answering (stream_response_of [] EndOfData)) hello_stream)
    !! "Access-Control-Allow-Headers" = Some "Content-Type" /\
  headers (run (answering (stream_response_of [] EndOfData)) hello_stream)
    !! "Content-Type" = Some "text/event-stream".
Proof.
  assert (Hv : valid (answering (stream_response_of [] EndOfData)) hello_stream)
    by (repeat split; reflexivity).
  assert (Hc : upstream_calls
                 (run (answering (stream_response_of [] EndOfData)) hello_stream) =
               [sent_streaming [user_message "Hello"]])
    by (vm_compute; reflexivity).
  exact (conj Hv (conj eq_refl (conj Hc (conj eq_refl (conj eq_refl
    (stream_switch_drops_authorization _ _ _ _ Hv eq_refl Hc eq_refl eq_refl)))))).
Defined.

Lemma forward_headers env k cod payload stream w :
  headers (snd (try_catch (forward env k cod payload stream)
                  internal_server_error w)) = headers w \/
  (truthy stream = true /\
   exists r, fetch env (upstream_request k payload stream) = Responded r /\
             ok r = true /\
             headers (snd (try_catch (forward env k cod payload stream)
                             internal_server_error w)) =
               event_stream_headers (headers w)).
Proof.
  destruct (truthy stream) eqn:Hs.
  - destruct (fetch env (upstream_request k payload stream)) as [e|r] eqn:Hf.
    + left. unfold forward, upstream_request in *. rewrite Hs in *. msimpl.
      rewrite Hf. reflexivity.
    + destruct (ok r) eqn:Hok.
      * right. split; [reflexivity|]. exists r. split; [reflexivity|].
        split; [assumption|]. destruct (body_of r) as [s|] eqn:Hb.
        -- apply (forward_streamed env k cod payload _ w r s Hs Hf Hok Hb).
        -- apply (forward_no_body env k cod payload _ w r Hs Hf Hok Hb).
      * left. unfold forward, upstream_request in *. rewrite Hs in *. msimpl.
        rewrite Hf. msimpl. rewrite Hok. msimpl.
        destruct (text_of r); reflexivity.
  - left. unfold forward. rewrite Hs. msimpl.
    match goal with |- context [fetch env ?rq] => destruct (fetch env rq) as [e|r] end;
      msimpl; [reflexivity|].
    destruct (ok r); msimpl; [|destruct (text_of r); reflexivity].
    destruct (json_of r) as [data|e]; msimpl; [|reflexivity].
    match goal with |- context [response_analysis ?c ?d ?w'] =>
      destruct (response_analysis_frame c d w') as (H1 & _);
      destruct (response_analysis c d w') as [res w''] end.
    msimpl. destruct res; msimpl; rewrite H1; reflexivity.
Qed.

(** On every path but the streamed one the headers of the response are the
    three CORS headers set on entry; on the streamed one they are the
    headers of lines 105-110. *)
Lemma cors_unless_streamed env req :
  headers (run env req) = cors_headers \/
  (valid env req /\ streaming req = true /\
   exists rq r, upstream_calls (run env req) = [rq] /\
                fetch env rq = Responded r /\ ok r = true /\
                headers (run env req) = event_stream_headers cors_headers).
Proof.
  destruct (String.eqb (method req) "OPTIONS") eqn:Ho.
  { left. unfold run, handler. msimpl. rewrite Ho. reflexivity. }
  destruct (String.eqb (method req) "POST") eqn:Hp.
  2:{ left. unfold run, handler. msimpl. rewrite Ho, Hp. reflexivity. }
  apply String.eqb_eq in Hp.
  destruct (api_key_present env) eqn:Hk.
  2:{ left. unfold run, handler, serve, api_key_present in *. rewrite Hp.
      change (String.eqb "POST" "OPTIONS") with false.
      change (String.eqb "POST" "POST") with true.
      destruct (FIREWORKS_API_KEY env) as [[|c k]|]; try discriminate; reflexivity. }
  destruct (truthy (prop (body req) "model") && truthy (prop (body req) "messages"))
    eqn:Hf.
  2:{ left. unfold run, handler, serve, api_key_present in *. rewrite Hp.
      change (String.eqb "POST" "OPTIONS") with false.
      change (String.eqb "POST" "POST") with true.
      destruct (FIREWORKS_API_KEY env) as [[|c k]|]; try discriminate.
      destruct (nullish (body req)); [reflexivity|].
      destruct (truthy (prop (body req) "model"));
        destruct (truthy (prop (body req) "messages")); try discriminate;
        reflexivity. }
  apply andb_true_iff in Hf as [Hmodel Hmsgs].
  assert (Hv : valid env req) by (repeat split; assumption).
  destruct (run_valid env req Hv)
    as [(e & w0 & Hr & _ & ->)|(k & cod & payload & w0 & Hr & _ & _ & _ & Hrun)].
  { left. apply Hr. }
  pose proof Hr as (Hh & _ & _ & _ & _ & Hu).
  destruct (forward_headers env k cod payload (prop (body req) "stream") w0)
    as [H|(Hs & r & Hfetch & Hok & H)].
  - left. rewrite Hrun, H. exact Hh.
  - right. split; [assumption|]. split; [exact Hs|].
    exists (upstream_request k payload (prop (body req) "stream")), r.
    rewrite Hrun, forward_calls, Hu, H, Hh. repeat split; assumption.
Qed.

(** *** The payload *)

Lemma lookup_field_app k (l1 l2 : list (string * val)) :
  has_field k l1 = true ->
  lookup_field k (l1 ++ l2) = lookup_field k l1.
Proof.
  unfold lookup_field, has_field.
  induction l1 as [|[k' v] l1 IH]; cbn [existsb find app fst snd]; [discriminate|].
  destruct (String.eqb k' k); [reflexivity|]. exact IH.
Qed.

Lemma add_tools_keeps base tools tool_choice payload k :
  add_tools base tools tool_choice = Ok payload ->
  has_field k base = true ->
  lookup_field k payload = lookup_field k base.
Proof.
  unfold add_tools. intros H Hk.
  destruct (toolsEnabled tools) as [[|]|]; try discriminate;
    injection H as <-; [|reflexivity].
  apply lookup_field_app, Hk.
Qed.

Lemma or_default v d : absent_or_zero v -> logical_or v d = d.
Proof. intros [-> | [sign ->]]; reflexivity. Qed.

(** C3: the payload sent upstream for a valid POST request carries the
    caller's [model] and [messages], and each of [temperature], [top_p],
    [top_k], [max_tokens], [presence_penalty], [frequency_penalty] and
    [stream] that the caller left out has its default (0.6, 1, 40, 8192, 0,
    0, false); a field supplied as 0 gets the same default, so it cannot be
    told from one left out. *)
Theorem payload_defaults env req rq :
  valid env req ->
  upstream_calls (run env req) = [rq] ->
  prop (fetch_body rq) "model" = prop (body req) "model" /\
  prop (fetch_body rq) "messages" = prop (body req) "messages" /\
  forall field default,
    In (field, default) defaults ->
    absent_or_zero (prop (body req) field) ->
    prop (fetch_body rq) field = default.
Proof.
  intros Hv Hc.
  destruct (run_called env req rq Hv Hc)
    as (k & cod & payload & w0 & _ & _ & _ & Hp & -> & _).
  cbn [fetch_body upstream_request prop]. unfold payload_of in Hp.
  pose proof (fun key => add_tools_keeps _ _ _ _ key Hp) as Hkeep.
  split; [rewrite Hkeep by reflexivity; reflexivity|].
  split; [rewrite Hkeep by reflexivity; reflexivity|].
  intros field default Hin Hz.
  cbn [defaults In] in Hin.
  repeat (destruct Hin as [Hin|Hin];
          [injection Hin as <- <-; rewrite Hkeep by reflexivity;
           cbn [lookup_field fireworksPayload find fst snd String.eqb Ascii.eqb Bool.eqb];
           apply or_default, Hz|]).
  destruct Hin.
Qed.

(** A field supplied as zero cannot be told from a field left out: the whole
    invocation is the same, upstream call, response and console. *)
Lemma lookup_field_absent k fields :
  has_field k fields = false -> lookup_field k fields = VUndef.
Proof.
  unfold has_field, lookup_field.
  induction fields as [|[k' v] fields IH]; cbn [existsb find fst snd]; [reflexivity|].
  destruct (String.eqb k' k); [discriminate|]. exact IH.
Qed.

Lemma forward_truthy env k cod payload s1 s2 :
  truthy s1 = truthy s2 ->
  forward env k cod payload s1 = forward env k cod payload s2.
Proof. unfold forward. intros ->. reflexivity. Qed.

(** An optional field of the payload supplied as [0] or [-0] gives the same
    invocation as the field left out: [x || default] does not tell them
    apart, so a caller cannot ask for a temperature of zero. *)
Lemma zero_as_absent env fields field default sign :
  In (field, default) defaults ->
  has_field field fields = false ->
  run env (post (VObj ((field, VNum (S754_zero sign)) :: fields))) =
  run env (post (VObj fields)).
Proof.
  intros Hin Habsent. apply lookup_field_absent in Habsent.
  unfold run, handler, serve. cbn [method body post prop].
  cbn [defaults In] in Hin.
  repeat (destruct Hin as [Hin|Hin];
          [injection Hin as <- <-;
           unfold lookup_field in *;
           cbn [find fst snd String.eqb Ascii.eqb Bool.eqb];
           rewrite Habsent;
           try rewrite (forward_truthy env _ _ _ (VNum (S754_zero sign)) VUndef eq_refl);
           reflexivity|]).
  destruct Hin.
Qed.

Lemma payload_defaults_witness :
  valid (answering (json_response 200 (completion (VStr "Hi.")))) zero_temperature /\
  upstream_calls (run (answering (json_response 200 (completion (VStr "Hi."))))
                    zero_temperature) = [sent_buffered [user_message "Hello"]] /\
  prop (fetch_body (sent_buffered [user_message "Hello"])) "model" =
    prop (body zero_temperature) "model" /\
  prop (fetch_body (sent_buffered [user_message "Hello"])) "messages" =
    prop (body zero_temperature) "messages" /\
  forall field default,
    In (field, default) defaults ->
    absent_or_zero (prop (body zero_temperature) field) ->
    prop (fetch_body (sent_buffered [user_message "Hello"])) field = default.
Proof.
  assert (Hv : valid (answering (json_response 200 (completion (VStr "Hi."))))
                 zero_temperature) by (repeat split; reflexivity).
  assert (Hc : upstream_calls
                 (run (answering (json_response 200 (completion (VStr "Hi."))))
                    zero_temperature) = [sent_buffered [user_message "Hello"]])
    by (vm_compute; reflexivity).
  exact (conj Hv (conj Hc (payload_defaults _ _ _ Hv Hc))).
Defined.

(** *** The buffered relay and the reflection logging *)

(** The buffered relay is the identity on the decoded document as long as
    the logging of lines 172-189 does not throw. *)
Lemma buffered_success_relayed env req rq r B :
  valid env req ->
  streaming req = false ->
  upstream_calls (run env req) = [rq] ->
  fetch env rq = Responded r ->
  ok r = true ->
  json_of r = Ok B ->
  hasAdvancedCoD (prop (body req) "messages") = Ok false \/
  (exists content, response_content B = Ok content /\
                   (truthy content = false \/ exists s, content = VStr s)) ->
  statusCode (run env req) = 200 /\
  json_body (run env req) = Some B /\
  written (run env req) = [] /\
  ended (run env req) = true /\
  headers (run env req) = cors_headers.
Proof.
  intros Hv Hs Hc Hf Hok Hj Hlog.
  destruct (run_called env req rq Hv Hc)
    as (k & cod & payload & w0 & Hr & _ & Hcod & _ & -> & ->).
  assert (Ha : fst (response_analysis cod B w0) = Ok tt).
  { unfold response_analysis. destruct cod; [|reflexivity].
    destruct Hlog as [Hfalse|(content & Hcontent & Hshape)]; [congruence|].
    msimpl. rewrite Hcontent.
    destruct Hshape as [->|[s ->]]; [reflexivity|].
    destruct (truthy (VStr s)); reflexivity. }
  destruct (forward_buffered env k cod payload _ w0 r B Hs Hf Hok Hj Ha)
    as (H1 & H2 & H3 & H4 & H5).
  destruct Hr as (Hh & _ & Hw & _).
  rewrite H1, H2, H3, H4, H5, Hh, Hw. repeat split.
Qed.

(** C2 fails where the logging throws: a valid buffered request that
    mentions [Chain of Draft], answered by the upstream with status 200 and a
    document whose message content is a list of parts, gets status 500 and
    the body of the outer [catch], not the document. *)
Lemma reflection_logging_breaks_relay :
  valid (answering (json_response 200 parts_completion)) draft_question /\
  streaming draft_question = false /\
  upstream_calls (run (answering (json_response 200 parts_completion)) draft_question) =
    [sent_buffered [user_message "What is 17 * 23? Chain of Draft"]] /\
  ok (json_response 200 parts_completion) = true /\
  json_of (json_response 200 parts_completion) = Ok parts_completion /\
  statusCode (run (answering (json_response 200 parts_completion)) draft_question) = 500 /\
  json_body (run (answering (json_response 200 parts_completion)) draft_question) =
    Some (internal_error "responseContent.match is not a function").
Proof. repeat split; vm_compute; reflexivity. Qed.

(** The same request is answered with 500 when the upstream document is
    [null]. *)
Lemma null_document_not_relayed :
  statusCode (run (answering (json_response 200 VNull)) draft_question) = 500 /\
  statusCode (run (answering (json_response 200 VNull)) plain_question) = 200 /\
  json_body (run (answering (json_response 200 VNull)) plain_question) = Some VNull.
Proof. repeat split; vm_compute; reflexivity. Qed.

(** C9 fails: two requests that differ only in the words [Chain of Draft],
    answered by the upstream in the same way, get different responses. *)
Lemma marker_changes_response :
  statusCode (run (answering (json_response 200 parts_completion)) plain_question) = 200 /\
  json_body (run (answering (json_response 200 parts_completion)) plain_question) =
    Some parts_completion /\
  statusCode (run (answering (json_response 200 parts_completion)) draft_question) = 500 /\
  json_body (run (answering (json_response 200 parts_completion)) draft_question) =
    Some (internal_error "responseContent.match is not a function").
Proof. repeat split; vm_compute; reflexivity. Qed.

(** The logging of the request decides the response as well: a valid request
    whose last message has a list of parts as content is answered with 500
    and never reaches the upstream. *)
Lemma preview_rejects_content_parts :
  valid (answering (json_response 200 (completion (VStr "391")))) parts_question /\
  statusCode (run (answering (json_response 200 (completion (VStr "391")))) parts_question)
    = 500 /\
  json_body (run (answering (json_response 200 (completion (VStr "391")))) parts_question)
    = Some (internal_error
              "messages[(messages.length - 1)]?.content?.substring is not a function") /\
  upstream_calls
    (run (answering (json_response 200 (completion (VStr "391")))) parts_question) = [].
Proof. repeat split; vm_compute; reflexivity. Qed.

(** Without the instrumentation the same request is forwarded and its answer
    relayed. *)
Lemma unlogged_forwards_content_parts :
  statusCode (run_unlogged (answering (json_response 200 (completion (VStr "391"))))
                parts_question) = 200 /\
  json_body (run_unlogged (answering (json_response 200 (completion (VStr "391"))))
               parts_question) = Some (completion (VStr "391")) /\
  length (upstream_calls
            (run_unlogged (answering (json_response 200 (completion (VStr "391"))))
               parts_question)) = 1%nat.
Proof. repeat split; vm_compute; reflexivity. Qed.

(** What the relay loop writes does not depend on the detection. *)
Lemma relay_ignores_detection reads last d n w :
  written (snd (relay true reads last d n w)) =
  written (snd (relay false reads last d n w)).
Proof.
  destruct (relay_spec true reads last d n w) as (_ & _ & _ & -> & _).
  destruct (relay_spec false reads last d n w) as (_ & _ & _ & -> & _).
  reflexivity.
Qed.

(** *** The relay loop and the text decoder *)

Lemma relay_texts_length d cs : length (relay_texts d cs) = length cs.
Proof.
  revert d. induction cs as [|c cs IH]; intros d; [reflexivity|].
  cbn [relay_texts]. destruct (decode d c) as [d' chunk]. cbn [length].
  rewrite IH. reflexivity.
Qed.

(** Taken together, the strings written are the output of the decoder on the
    bytes taken together, less a leading byte order mark: the split into
    reads does not matter. *)
Lemma relay_texts_concat cs : forall d,
  concat (relay_texts d cs) =
  strip_mark (bom_seen d) (snd (utf8_run (utf8 d) (concat cs))).
Proof.
  induction cs as [|c cs IH]; intros d.
  - cbn. destruct (bom_seen d); reflexivity.
  - cbn [relay_texts concat]. unfold decode. rewrite UTF8Facts.utf8_run_app.
    destruct (utf8_run (utf8 d) c) as [st out].
    destruct out as [|x out].
    + cbn [concat]. rewrite IH. cbn [utf8 bom_seen app].
      destruct (utf8_run st (concat cs)). reflexivity.
    + cbn [concat]. rewrite IH. cbn [utf8 bom_seen strip_mark].
      destruct (utf8_run st (concat cs)) as [st' out']. cbn [snd].
      destruct (bom_seen d); cbn [negb andb strip_mark app]; [reflexivity|].
      destruct (x =? BOM); reflexivity.
Qed.

(** Reads that each hold whole characters are written as they are. *)
Lemma relay_texts_whole ts : forall d,
  utf8 d = utf8_initial ->
  bom_seen d = true \/ starts_with_BOM (concat ts) = false ->
  Forall (fun t => scalars t = true) ts ->
  relay_texts d (map encode ts) = ts.
Proof.
  induction ts as [|t ts IH]; intros d Hd Hbom Hs; [reflexivity|].
  inversion Hs as [|? ? Ht Hts]; subst.
  cbn [map relay_texts]. unfold decode. rewrite Hd.
  rewrite UTF8Facts.decode_encode by exact Ht.
  destruct t as [|c t].
  - f_equal. apply IH; [reflexivity|exact Hbom|exact Hts].
  - f_equal.
    + destruct Hbom as [->|Hbom]; [reflexivity|].
      cbn in Hbom. rewrite Hbom, andb_false_r. reflexivity.
    + apply IH; [reflexivity|left; reflexivity|exact Hts].
Qed.

(** What the relay loop writes for well-formed UTF-8 with no leading byte
    order mark. *)
Lemma relay_texts_well_formed cs t :
  scalars t = true ->
  starts_with_BOM t = false ->
  concat cs = encode t ->
  concat (map encode (relay_texts new_TextDecoder cs)) = concat cs /\
  length (map encode (relay_texts new_TextDecoder cs)) = length cs /\
  (Forall whole cs -> map encode (relay_texts new_TextDecoder cs) = cs).
Proof.
  intros Hs Hbom Hcs.
  assert (Hcat : concat (relay_texts new_TextDecoder cs) = t).
  { rewrite relay_texts_concat. cbn [new_TextDecoder utf8 bom_seen].
    rewrite Hcs, UTF8Facts.decode_encode by exact Hs. cbn [snd strip_mark].
    destruct t as [|c t]; [reflexivity|]. cbn in Hbom. rewrite Hbom. reflexivity. }
  split; [rewrite <- UTF8Facts.encode_concat, Hcat; symmetry; exact Hcs|].
  split; [rewrite length_map; apply relay_texts_length|].
  intros Hw.
  assert (Hts : exists ts, Forall (fun t => scalars t = true) ts /\ cs = map encode ts).
  { clear -Hw. induction Hw as [|c cs (t & Ht & ->) _ (ts & Hts & ->)].
    - exists []. split; [constructor|reflexivity].
    - exists (t :: ts). split; [constructor; assumption|reflexivity]. }
  destruct Hts as (ts & Hts & ->).
  rewrite relay_texts_whole; [reflexivity|reflexivity| |exact Hts].
  right. rewrite <- UTF8Facts.encode_concat in Hcs.
  apply UTF8Facts.encode_injective in Hcs;
    [rewrite Hcs; exact Hbom|apply UTF8Facts.forallb_concat; exact Hts|exact Hs].
Qed.

Lemma single_call env req rq :
  valid env req ->
  head (upstream_calls (run env req)) = Some rq ->
  upstream_calls (run env req) = [rq].
Proof.
  intros Hv Hc.
  destruct (run_valid env req Hv)
    as [(e & w0 & Hr & _ & Hrun)|(k & cod & payload & w0 & Hr & _ & _ & _ & Hrun)];
    destruct Hr as (_ & _ & _ & _ & _ & Hu).
  - rewrite Hrun in Hc. msimpl. rewrite Hu in Hc. discriminate.
  - rewrite Hrun, forward_calls, Hu in *. injection Hc as ->. reflexivity.
Qed.

Lemma run_streamed env req rq r s :
  valid env req ->
  streaming req = true ->
  upstream_calls (run env req) = [rq] ->
  fetch env rq = Responded r ->
  ok r = true ->
  body_of r = Some s ->
  statusCode (run env req) = 200 /\
  written (run env req) =
    (map encode (relay_texts new_TextDecoder (chunks s)) ++ closing (finish s))%list /\
  json_body (run env req) = None /\
  ended (run env req) = true.
Proof.
  intros Hv Hs Hc Hf Hok Hb.
  destruct (run_called env req rq Hv Hc)
    as (k & cod & payload & w0 & Hr & _ & _ & _ & -> & ->).
  destruct (forward_streamed env k cod payload _ w0 r s Hs Hf Hok Hb)
    as (_ & H2 & H3 & H4 & H5).
  destruct Hr as (_ & Hst & Hw & Hj & _).
  rewrite H2, H3, H4, H5, Hst, Hw, Hj. repeat split.
Qed.

Lemma interrupted_event_bytes : code_points interrupted_event = terminal_event.
Proof. reflexivity. Qed.

(** C1, as amended: when the upstream accepts a valid streaming request and
    its body delivers the chunks [cs] and then ends, and the chunks taken
    together are well-formed UTF-8 that does not begin with a byte order
    mark, the handler makes one write for each chunk, the bytes written are
    together the bytes of the chunks in order, and the response is then
    ended with status 200 and no JSON body; when moreover every chunk begins
    and ends on a character boundary, the writes are the chunks. *)
Theorem stream_relayed env req rq r cs t :
  valid env req ->
  streaming req = true ->
  upstream_calls (run env req) = [rq] ->
  fetch env rq = Responded r ->
  ok r = true ->
  body_of r = Some {| chunks := cs; finish := EndOfData |} ->
  scalars t = true ->
  starts_with_BOM t = false ->
  concat cs = encode t ->
  concat (written (run env req)) = concat cs /\
  length (written (run env req)) = length cs /\
  (Forall whole cs -> written (run env req) = cs) /\
  ended (run env req) = true /\
  statusCode (run env req) = 200 /\
  json_body (run env req) = None.
Proof.
  intros Hv Hs Hc Hf Hok Hb Ht Hbom Hcs.
  destruct (run_streamed env req rq r _ Hv Hs Hc Hf Hok Hb) as (H1 & H2 & H3 & H4).
  cbn [chunks finish closing] in H2. rewrite app_nil_r in H2.
  destruct (relay_texts_well_formed cs t Ht Hbom Hcs) as (Ha & Hl & Hw).
  rewrite H1, H2, H3, H4. repeat split; assumption.
Qed.

Lemma stream_relayed_witness :
  valid (answering (stream_response_of cafe_chunks EndOfData)) hello_stream /\
  streaming hello_stream = true /\
  upstream_calls (run (answering (stream_response_of cafe_chunks EndOfData)) hello_stream) =
    [sent_streaming [user_message "Hello"]] /\
  fetch (answering (stream_response_of cafe_chunks EndOfData))
    (sent_streaming [user_message "Hello"]) =
    Responded (stream_response_of cafe_chunks EndOfData) /\
  ok (stream_response_of cafe_chunks EndOfData) = true /\
  body_of (stream_response_of cafe_chunks EndOfData) =
    Some {| chunks := cafe_chunks; finish := EndOfData |} /\
  scalars cafe_text = true /\
  starts_with_BOM cafe_text = false /\
  concat cafe_chunks = encode cafe_text /\
  concat (written (run (answering (stream_response_of cafe_chunks EndOfData)) hello_stream))
    = concat cafe_chunks /\
  length (written (run (answering (stream_response_of cafe_chunks EndOfData)) hello_stream))
    = length cafe_chunks /\
  (Forall whole cafe_chunks ->
   written (run (answering (stream_response_of cafe_chunks EndOfData)) hello_stream)
     = cafe_chunks) /\
  ended (run (answering (stream_response_of cafe_chunks EndOfData)) hello_stream) = true /\
  statusCode (run (answering (stream_response_of cafe_chunks EndOfData)) hello_stream) = 200 /\
  json_body (run (answering (stream_response_of cafe_chunks EndOfData)) hello_stream) = None.
Proof.
  assert (Hv : valid (answering (stream_response_of cafe_chunks EndOfData)) hello_stream)
    by (repeat split; reflexivity).
  assert (Hc : upstream_calls
                 (run (answering (stream_response_of cafe_chunks EndOfData)) hello_stream) =
               [sent_streaming [user_message "Hello"]])
    by (vm_compute; reflexivity).
  assert (He : concat cafe_chunks = encode cafe_text) by (vm_compute; reflexivity).
  exact (conj Hv (conj eq_refl (conj Hc (conj eq_refl (conj eq_refl (conj eq_refl
    (conj eq_refl (conj eq_refl (conj He
      (stream_relayed _ _ _ _ _ cafe_text Hv eq_refl Hc eq_refl eq_refl eq_refl
         eq_refl eq_refl He)))))))))).
Defined.

(** A chunk that is not UTF-8 is not written as it was read: the byte [FC]
    leaves as [EF BF BD]. *)
Lemma latin1_chunk_written :
  written (run (answering (stream_response_of latin1_chunks EndOfData)) hello_stream) =
    [[0x66; 0xEF; 0xBF; 0xBD; 0x72]].
Proof. vm_compute. reflexivity. Qed.

(** C1 as stated fails on that chunk. *)
Lemma latin1_chunk_rewritten :
  ~ relays_chunks_unchanged
      (answering (stream_response_of latin1_chunks EndOfData)) hello_stream
      (sent_streaming [user_message "Hello"])
      (stream_response_of latin1_chunks EndOfData) latin1_chunks.
Proof.
  intros H.
  assert (Hv : valid (answering (stream_response_of latin1_chunks EndOfData)) hello_stream)
    by (repeat split; reflexivity).
  assert (Hc : upstream_calls
                 (run (answering (stream_response_of latin1_chunks EndOfData)) hello_stream) =
               [sent_streaming [user_message "Hello"]])
    by (vm_compute; reflexivity).
  destruct (H Hv eq_refl Hc eq_refl eq_refl eq_refl) as (Hw & _).
  vm_compute in Hw. discriminate.
Qed.

(** C4, as amended: when the upstream accepts a valid streaming request and
    a read of its body fails after the chunks [cs], and the chunks taken
    together are well-formed UTF-8 that does not begin with a byte order
    mark, the handler makes one write for each chunk, the bytes of these
    writes being together the bytes of the chunks in order (and the writes
    being the chunks when every chunk begins and ends on a character
    boundary), then writes the terminal event once and ends the response;
    the upstream is called once and no JSON body is sent. *)
Theorem interruption_reported env req rq r cs t e :
  valid env req ->
  streaming req = true ->
  head (upstream_calls (run env req)) = Some rq ->
  fetch env rq = Responded r ->
  ok r = true ->
  body_of r = Some {| chunks := cs; finish := ReadFails e |} ->
  scalars t = true ->
  starts_with_BOM t = false ->
  concat cs = encode t ->
  exists ws,
    written (run env req) = (ws ++ [terminal_event])%list /\
    concat ws = concat cs /\
    length ws = length cs /\
    (Forall whole cs -> ws = cs) /\
    ended (run env req) = true /\
    upstream_calls (run env req) = [rq] /\
    json_body (run env req) = None.
Proof.
  intros Hv Hs Hh Hf Hok Hb Ht Hbom Hcs.
  pose proof (single_call env req rq Hv Hh) as Hc.
  destruct (run_streamed env req rq r _ Hv Hs Hc Hf Hok Hb) as (H1 & H2 & H3 & H4).
  cbn [chunks finish closing] in H2. rewrite interrupted_event_bytes in H2.
  destruct (relay_texts_well_formed cs t Ht Hbom Hcs) as (Ha & Hl & Hw).
  exists (map encode (relay_texts new_TextDecoder cs)).
  repeat split; assumption.
Qed.

Lemma interruption_reported_witness :
  valid (answering (stream_response_of cafe_chunks (ReadFails connection_reset)))
    hello_stream /\
  streaming hello_stream = true /\
  head (upstream_calls
          (run (answering (stream_response_of cafe_chunks (ReadFails connection_reset)))
             hello_stream)) = Some (sent_streaming [user_message "Hello"]) /\
  fetch (answering (stream_response_of cafe_chunks (ReadFails connection_reset)))
    (sent_streaming [user_message "Hello"]) =
    Responded (stream_response_of cafe_chunks (ReadFails connection_reset)) /\
  ok (stream_response_of cafe_chunks (ReadFails connection_reset)) = true /\
  body_of (stream_response_of cafe_chunks (ReadFails connection_reset)) =
    Some {| chunks := cafe_chunks; finish := ReadFails connection_reset |} /\
  scalars cafe_text = true /\
  starts_with_BOM cafe_text = false /\
  concat cafe_chunks = encode cafe_text /\
  exists ws,
    written (run (answering (stream_response_of cafe_chunks (ReadFails connection_reset)))
               hello_stream) = (ws ++ [terminal_event])%list /\
    concat ws = concat cafe_chunks /\
    length ws = length cafe_chunks /\
    (Forall whole cafe_chunks -> ws = cafe_chunks) /\
    ended (run (answering (stream_response_of cafe_chunks (ReadFails connection_reset)))
             hello_stream) = true /\
    upstream_calls
      (run (answering (stream_response_of cafe_chunks (ReadFails connection_reset)))
         hello_stream) = [sent_streaming [user_message "Hello"]] /\
    json_body (run (answering (stream_response_of cafe_chunks (ReadFails connection_reset)))
                 hello_stream) = None.
Proof.
  assert (Hv : valid (answering (stream_response_of cafe_chunks (ReadFails connection_reset)))
                 hello_stream) by (repeat split; reflexivity).
  assert (Hc : head (upstream_calls
                 (run (answering (stream_response_of cafe_chunks (ReadFails connection_reset)))
                    hello_stream)) = Some (sent_streaming [user_message "Hello"]))
    by (vm_compute; reflexivity).
  assert (He : concat cafe_chunks = encode cafe_text) by (vm_compute; reflexivity).
  exact (conj Hv (conj eq_refl (conj Hc (conj eq_refl (conj eq_refl (conj eq_refl
    (conj eq_refl (conj eq_refl (conj He
      (interruption_reported _ _ _ _ _ cafe_text _ Hv eq_refl Hc eq_refl eq_refl
         eq_refl eq_refl eq_refl He)))))))))).
Defined.

(** When the read fails in the middle of a character, the bytes of that
    character that were already read are never written: here the byte [C3]
    that ends the chunk. *)
Lemma cut_character_written :
  written (run (answering (stream_response_of cut_chunks (ReadFails connection_reset)))
             hello_stream) =
    [[100; 97; 116; 97; 58; 32; 99; 97; 102]; terminal_event].
Proof. vm_compute. reflexivity. Qed.

(** C4 as stated fails on that stream. *)
Lemma cut_character_dropped :
  ~ relays_chunks_then_event
      (answering (stream_response_of cut_chunks (ReadFails connection_reset)))
      hello_stream (sent_streaming [user_message "Hello"])
      (stream_response_of cut_chunks (ReadFails connection_reset))
      cut_chunks connection_reset.
Proof.
  intros H.
  assert (Hv : valid (answering (stream_response_of cut_chunks (ReadFails connection_reset)))
                 hello_stream) by (repeat split; reflexivity).
  assert (Hc : upstream_calls
                 (run (answering (stream_response_of cut_chunks (ReadFails connection_reset)))
                    hello_stream) = [sent_streaming [user_message "Hello"]])
    by (vm_compute; reflexivity).
  destruct (H Hv eq_refl Hc eq_refl eq_refl eq_refl) as (Hw & _).
  vm_compute in Hw. discriminate.
Qed.

(** *** Requests of the documented shape reach the upstream *)

Lemma mentions_plain m needles :
  plain_message m -> exists b, mentions m needles = Ok b.
Proof.
  intros (fields & s & -> & Hs).
  induction needles as [|needle rest (b & IH)]; [exists false; reflexivity|].
  cbn [mentions]. unfold content_includes. cbn [nullish prop]. rewrite Hs.
  cbn [truthy]. destruct (includes s needle); [exists true|exists b]; auto.
Qed.

Lemma some_plain ms needles :
  Forall plain_message ms ->
  exists b, some (fun m => mentions m needles) ms = Ok b.
Proof.
  induction 1 as [|m ms Hm _ (b & IH)]; [exists false; reflexivity|].
  cbn [some]. destruct (mentions_plain m needles Hm) as ([|] & ->);
    [exists true|exists b]; auto.
Qed.

Lemma preview_plain ms :
  Forall plain_message ms -> exists p, lastMessagePreview (VArr ms) = Ok p.
Proof.
  intros H. unfold lastMessagePreview.
  assert (Hl : List.last ms VUndef = VUndef \/ plain_message (List.last ms VUndef)).
  { induction H as [|m ms Hm Hms IH]; [left; reflexivity|].
    destruct ms as [|m' ms]; [right; exact Hm|]. exact IH. }
  destruct Hl as [->|(fields & s & -> & Hs)]; [eexists; reflexivity|].
  cbn [opt_prop nullish prop]. rewrite Hs. eexists; reflexivity.
Qed.

(** A valid request whose [messages] are an array of messages with string
    content, and which has no [tools], is forwarded: the hypothesis that the
    upstream call is made holds for every request of the documented shape. *)
Lemma chat_request_forwarded env req ms :
  valid env req ->
  prop (body req) "messages" = VArr ms ->
  Forall plain_message ms ->
  prop (body req) "tools" = VUndef ->
  exists rq, upstream_calls (run env req) = [rq].
Proof.
  intros Hv Hms Hplain Htools.
  destruct (some_plain ms markers Hplain) as (cod & Hcod).
  destruct (preview_plain ms Hplain) as (p & Hp).
  destruct (run_valid env req Hv)
    as [(e & w0 & _ & Hthrow & _)|(k & cod' & payload & w0 & Hr & _ & _ & _ & Hrun)].
  - rewrite Hms, Htools in Hthrow. unfold hasAdvancedCoD in Hthrow.
    rewrite Hcod, Hp in Hthrow. destruct Hthrow as [H|[H|H]]; discriminate.
  - eexists. rewrite Hrun, forward_calls.
    destruct Hr as (_ & _ & _ & _ & _ & ->). reflexivity.
Qed.

(** *** The instrumentation is transparent as long as it does not throw *)

Lemma response_analysis_textual cod data w :
  textual data -> fst (response_analysis cod data w) = Ok tt.
Proof.
  intros (content & Hc & Hshape). unfold response_analysis.
  destruct cod; [|reflexivity]. msimpl. rewrite Hc.
  destruct Hshape as [->|[s ->]]; [reflexivity|].
  destruct (truthy (VStr s)); reflexivity.
Qed.

Lemma forward_transparent env k cod payload stream w w' :
  observable w = observable w' ->
  upstream_textual env ->
  observable (snd (try_catch (forward env k cod payload stream)
                     internal_server_error w)) =
  observable (snd (try_catch (forward env k false payload stream)
                     internal_server_error w')).
Proof.
  intros Hw Htext. destruct w as [h s wr j e c u], w' as [h' s' wr' j' e' c' u'].
  unfold observable in Hw. cbn [headers statusCode written json_body ended
                               upstream_calls] in Hw.
  injection Hw as <- <- <- <- <- <-.
  unfold forward, observable.
  destruct (truthy stream); msimpl;
    match goal with |- context [fetch env ?rq] =>
      destruct (fetch env rq) as [err|r] eqn:Hf end;
    msimpl; try reflexivity;
    destruct (ok r); msimpl;
    try (destruct (text_of r); msimpl; reflexivity).
  - unfold stream_response. msimpl. destruct (body_of r) as [b|]; msimpl; [|reflexivity].
    repeat match goal with |- context [relay ?c0 ?rs ?l ?d ?n ?w0] =>
      let H1 := fresh in let H2 := fresh in let H3 := fresh in
      let H4 := fresh in let H5 := fresh in let H6 := fresh in
      let H7 := fresh in let res := fresh "res" in let w1 := fresh "w" in
      destruct (relay_spec c0 rs l d n w0) as (H1 & H2 & H3 & H4 & H5 & H6 & H7);
      destruct (relay c0 rs l d n w0) as [res w1];
      cbn [fst snd headers statusCode written json_body ended upstream_calls] in *;
      subst res end.
    destruct (finish b); msimpl; congruence.
  - destruct (json_of r) as [data|err] eqn:Hj; msimpl; [|reflexivity].
    pose proof (Htext _ _ _ Hf Hj) as Hdata.
    repeat match goal with |- context [response_analysis ?c0 ?d ?w0] =>
      let Ha := fresh in let H1 := fresh in let H2 := fresh in let H3 := fresh in
      let H4 := fresh in let H5 := fresh in let H6 := fresh in
      let res := fresh "res" in let w1 := fresh "w" in
      pose proof (response_analysis_textual c0 d w0 Hdata) as Ha;
      destruct (response_analysis_frame c0 d w0) as (H1 & H2 & H3 & H4 & H5 & H6);
      destruct (response_analysis c0 d w0) as [res w1];
      cbn [fst snd headers statusCode written json_body ended upstream_calls] in *;
      subst res end.
    msimpl. congruence.
Qed.

(** When the logs of the request do not throw and the upstream returns
    textual documents, the handler and the handler without the
    instrumentation do the same, console apart. *)
Lemma instrumentation_transparent env req :
  request_logged req ->
  upstream_textual env ->
  observable (run env req) = observable (run_unlogged env req).
Proof.
  intros (cod & preview & Hcod & Hpreview) Htext.
  unfold run, run_unlogged, handler, handler_unlogged.
  destruct (String.eqb (method req) "OPTIONS"); [reflexivity|].
  destruct (String.eqb (method req) "POST"); [|reflexivity].
  unfold serve, serve_unlogged.
  destruct (FIREWORKS_API_KEY env) as [[|c k]|]; try reflexivity.
  destruct (nullish (body req)); [reflexivity|].
  destruct (negb (truthy (prop (body req) "model")) ||
            negb (truthy (prop (body req) "messages"))); [reflexivity|].
  rewrite Hcod, Hpreview. unfold add_tools.
  destruct (toolsEnabled (prop (body req) "tools")) as [enabled|err]; [|reflexivity].
  msimpl.
  destruct enabled;
    match goal with |- context [forward env ?k' cod ?p ?s ?w1] =>
      match goal with |- context [forward env k' false p s ?w2] =>
        exact (forward_transparent env k' cod p s w1 w2 eq_refl Htext) end end.
Qed.

End Facts.

(** ** More of the handler *)

Module More.
Import JS UTF8 Http Chat Terms Samples Courses.
Import UTF8Facts Facts.

(** *** Every course of an invocation *)

Lemma analysis_independent cod data w :
  fst (response_analysis cod data w) = analysis_of cod data.
Proof.
  unfold analysis_of, response_analysis. destruct cod; [|reflexivity].
  msimpl. destruct (response_content data) as [content|e]; [|reflexivity].
  destruct (truthy content); [|reflexivity].
  destruct content; reflexivity.
Qed.

Lemma forward_course env k cod payload stream w :
  ready w ->
  forwarded (fetch env (upstream_request k payload stream)) cod stream
    (snd (try_catch (forward env k cod payload stream) internal_server_error w)).
Proof.
  intros (Hh & Hs & Hw & Hj & He & Hu).
  unfold forwarded, outcome.
  destruct (fetch env (upstream_request k payload stream)) as [e|r] eqn:Hf.
  { unfold forward, upstream_request in *.
    destruct (truthy stream); msimpl; rewrite Hf; msimpl; repeat split; assumption. }
  destruct (ok r) eqn:Hok; cbn [negb].
  2:{ destruct (text_of r) as [T|e] eqn:HT.
      - destruct (forward_failed env k cod payload stream w r T Hf Hok HT)
          as (H1 & H2 & H3 & H4 & H5).
        rewrite H1, H2, H3, H4, H5. repeat split; assumption.
      - unfold forward, upstream_request in *.
        destruct (truthy stream); msimpl; rewrite Hf; msimpl; rewrite Hok; msimpl;
          rewrite HT; msimpl; repeat split; assumption. }
  destruct (truthy stream) eqn:Hst.
  { destruct (body_of r) as [s|] eqn:Hb.
    - destruct (forward_streamed env k cod payload stream w r s Hst Hf Hok Hb)
        as (H1 & H2 & H3 & H4 & H5).
      rewrite H1, H2, H3, H4, H5, Hh, Hw. repeat split; assumption.
    - destruct (forward_no_body env k cod payload stream w r Hst Hf Hok Hb)
        as (H1 & H2 & H3 & H4 & H5).
      rewrite H1, H2, H3, H4, H5, Hh. repeat split; assumption. }
  destruct (json_of r) as [data|e] eqn:Hj'.
  2:{ unfold forward, upstream_request in *. rewrite Hst in *. msimpl.
      rewrite Hf. msimpl. rewrite Hok. msimpl. rewrite Hj'. msimpl.
      repeat split; assumption. }
  destruct (analysis_of cod data) as [[]|e] eqn:Ha.
  - rewrite <- (analysis_independent cod data w) in Ha.
    destruct (forward_buffered env k cod payload stream w r data Hst Hf Hok Hj' Ha)
      as (H1 & H2 & H3 & H4 & H5).
    rewrite H1, H2, H3, H4, H5. repeat split; assumption.
  - unfold forward, upstream_request in *. rewrite Hst in *. msimpl.
    rewrite Hf. msimpl. rewrite Hok. msimpl. rewrite Hj'. msimpl.
    match goal with |- context [response_analysis ?c ?d ?w'] =>
      pose proof (analysis_independent c d w') as Ha';
      destruct (response_analysis_frame c d w') as (H1 & H2 & H3 & H4 & H5 & H6);
      destruct (response_analysis c d w') as [res w''] end.
    cbn [fst snd] in *. rewrite Ha in Ha'. subst res. msimpl.
    rewrite H1, H3. repeat split; assumption.
Qed.

(** The handler follows one of the courses of [course]. *)
Lemma run_course env req : course env req (run env req).
Proof.
  unfold course.
  destruct (String.eqb (method req) "OPTIONS") eqn:Ho.
  { unfold run, handler. msimpl. rewrite Ho. msimpl. repeat split. }
  destruct (String.eqb (method req) "POST") eqn:Hp; cbn [negb].
  2:{ unfold run, handler. msimpl. rewrite Ho, Hp. msimpl. repeat split. }
  apply String.eqb_eq in Hp.
  destruct (api_key_present env) eqn:Hk; cbn [negb].
  2:{ unfold run, handler, serve, api_key_present in *. rewrite Hp.
      change (String.eqb "POST" "OPTIONS") with false.
      change (String.eqb "POST" "POST") with true.
      destruct (FIREWORKS_API_KEY env) as [[|c k]|]; try discriminate;
        msimpl; repeat split. }
  destruct (nullish (body req)) eqn:Hb.
  { unfold run, handler, serve, api_key_present in *. rewrite Hp.
    change (String.eqb "POST" "OPTIONS") with false.
    change (String.eqb "POST" "POST") with true.
    destruct (FIREWORKS_API_KEY env) as [[|c k]|]; try discriminate.
    rewrite Hb. msimpl. split; [|reflexivity]. eexists. repeat split. }
  destruct (negb (truthy (prop (body req) "model")) ||
            negb (truthy (prop (body req) "messages"))) eqn:Hf.
  { unfold run, handler, serve, api_key_present in *. rewrite Hp.
    change (String.eqb "POST" "OPTIONS") with false.
    change (String.eqb "POST" "POST") with true.
    destruct (FIREWORKS_API_KEY env) as [[|c k]|]; try discriminate.
    rewrite Hb, Hf. msimpl. repeat split. }
  apply orb_false_iff in Hf as [Hmodel Hmsgs].
  apply negb_false_iff in Hmodel, Hmsgs.
  assert (Hv : valid env req) by (repeat split; assumption).
  destruct (run_valid env req Hv)
    as [(e & w0 & Hr & Hthrow & Hrun)|(k & cod & payload & w0 & Hr & Hkey & Hcod & Hpay & Hrun)].
  - left. exists e. split; [exact Hthrow|]. rewrite Hrun.
    destruct Hr as (Hh & Hs & Hw & Hj & He & Hu). msimpl.
    repeat split; assumption.
  - right. exists k, cod, payload. rewrite Hrun.
    split; [exact Hkey|]. split; [exact Hcod|]. split; [exact Hpay|].
    split.
    + rewrite forward_calls. destruct Hr as (_ & _ & _ & _ & _ & ->). reflexivity.
    + apply forward_course. exact Hr.
Qed.

(** Splits a hypothesis [course env req w] into its courses. *)
Ltac split_course :=
  repeat match goal with
  | H : context [if ?c then _ else _] |- _ => destruct c eqn:?
  | H : context [match ?x with Ok _ => _ | Throw _ => _ end] |- _ => destruct x eqn:?
  | H : context [match ?x with Some _ => _ | None => _ end] |- _ => destruct x eqn:?
  | H : context [match ?x with Rejected _ => _ | Responded _ => _ end] |- _ =>
      destruct x eqn:?
  | H : _ \/ _ |- _ => destruct H as [H|H]
  | H : exists _, _ |- _ => destruct H as (? & H)
  | H : _ /\ _ |- _ => destruct H as (? & H)
  end.

Ltac by_course env req :=
  let H := fresh "Hcourse" in
  pose proof (run_course env req) as H;
  unfold course, forwarded, outcome in H;
  split_course.

(** *** What holds of every invocation *)

(** Every invocation ends the response: by [res.end()], or by [res.json]. *)
Theorem response_always_ended env req : ended (run env req) = true.
Proof. by_course env req; assumption. Qed.

(** The upstream is called only for a valid request, and then once: there
    is no second call and no retry on any course. *)
Theorem called_once_if_valid env req :
  upstream_calls (run env req) = [] \/
  (valid env req /\ exists rq, upstream_calls (run env req) = [rq]).
Proof.
  by_course env req; try (left; assumption).
  all: right; split; [|eexists; eassumption].
  all: repeat match goal with
         | H : negb _ = false |- _ => apply negb_false_iff in H
         | H : _ || _ = false |- _ => apply orb_false_iff in H as [? ?]
         end.
  all: repeat split; try assumption; apply String.eqb_eq; assumption.
Qed.

(** A response is a JSON document or a stream of writes, never both; the
    responses with writes are those of status 200 under the headers of the
    event stream. *)
Theorem document_or_stream env req :
  written (run env req) = [] \/
  (json_body (run env req) = None /\
   statusCode (run env req) = 200 /\
   headers (run env req) = event_stream_headers cors_headers).
Proof.
  by_course env req; try (left; assumption).
  all: right; repeat split; assumption.
Qed.

(** Every response with a status other than 200 is a JSON document with a
    string field [error], and nothing was written before it. *)
Theorem failures_are_documents env req :
  statusCode (run env req) <> 200 ->
  exists doc,
    json_body (run env req) = Some doc /\ error_document doc /\
    written (run env req) = [].
Proof.
  intros Hne. by_course env req; try congruence;
    (eexists; split; [eassumption|]; split; [|assumption];
     eexists _, _; split; reflexivity).
Qed.

(** A JSON document sent with status 200 is the document that the upstream
    returned with a success status to a request without [stream]: the
    handler has no 200 document of its own. *)
Theorem ok_document_is_upstream env req B :
  statusCode (run env req) = 200 ->
  json_body (run env req) = Some B ->
  exists rq r,
    upstream_calls (run env req) = [rq] /\
    fetch env rq = Responded r /\
    ok r = true /\ json_of r = Ok B /\ streaming req = false.
Proof.
  intros Hs Hj. by_course env req; try congruence.
  all: try (exfalso;
    match goal with
    | Hok : negb (ok ?r) = true, Hst : statusCode _ = status ?r |- _ =>
        rewrite Hs in Hst; unfold ok in Hok; rewrite <- Hst in Hok; discriminate
    end).
  all: eexists _, _; split; [eassumption|]; split; [eassumption|].
  all: repeat match goal with
           | H : negb _ = false |- _ => apply negb_false_iff in H
           end.
  all: split; [assumption|]; split; [congruence|assumption].
Qed.

Lemma failures_are_documents_witness :
  statusCode (run no_credential delete_request) <> 200 /\
  exists doc,
    json_body (run no_credential delete_request) = Some doc /\ error_document doc /\
    written (run no_credential delete_request) = [].
Proof.
  assert (H : statusCode (run no_credential delete_request) <> 200)
    by (vm_compute; discriminate).
  exact (conj H (failures_are_documents no_credential delete_request H)).
Defined.

Lemma ok_document_is_upstream_witness :
  statusCode (run (answering (json_response 200 greeting)) hello) = 200 /\
  json_body (run (answering (json_response 200 greeting)) hello) = Some greeting /\
  exists rq r,
    upstream_calls (run (answering (json_response 200 greeting)) hello) = [rq] /\
    fetch (answering (json_response 200 greeting)) rq = Responded r /\
    ok r = true /\ json_of r = Ok greeting /\ streaming hello = false.
Proof.
  assert (H1 : statusCode (run (answering (json_response 200 greeting)) hello) = 200)
    by (vm_compute; reflexivity).
  assert (H2 : json_body (run (answering (json_response 200 greeting)) hello) =
               Some greeting) by (vm_compute; reflexivity).
  exact (conj H1 (conj H2 (ok_document_is_upstream _ _ _ H1 H2))).
Defined.

(** *** The courses after the upstream call *)

Lemma called_course env req rq :
  valid env req ->
  upstream_calls (run env req) = [rq] ->
  exists cod,
    hasAdvancedCoD (prop (body req) "messages") = Ok cod /\
    forwarded (fetch env rq) cod (prop (body req) "stream") (run env req).
Proof.
  intros Hv Hc.
  destruct (run_called env req rq Hv Hc)
    as (k & cod & payload & w0 & Hr & _ & Hcod & _ & -> & ->).
  exists cod. split; [exact Hcod|]. apply forward_course. exact Hr.
Qed.

(** The preflight: a request with the method OPTIONS is answered with status
    200, the three CORS headers and no body, whatever its body and the
    environment hold; nothing is logged and the upstream is not called. *)
Theorem preflight_answered env req :
  method req = "OPTIONS" ->
  run env req =
    {| headers := cors_headers; statusCode := 200; written := [];
       json_body := None; ended := true; console := []; upstream_calls := [] |}.
Proof.
  intros Hm. unfold run, handler. msimpl. rewrite Hm. reflexivity.
Qed.

Lemma preflight_answered_witness :
  method options_request = "OPTIONS" /\
  run no_credential options_request =
    {| headers := cors_headers; statusCode := 200; written := [];
       json_body := None; ended := true; console := []; upstream_calls := [] |}.
Proof.
  exact (conj eq_refl (preflight_answered no_credential options_request eq_refl)).
Defined.

(** When [fetch] rejects, the handler answers 500 with the document of the
    outer [catch], whose message is the message of the rejection; nothing
    was written and the headers are those set on entry. *)
Theorem rejected_fetch_reported env req rq e :
  valid env req ->
  upstream_calls (run env req) = [rq] ->
  fetch env rq = Rejected e ->
  statusCode (run env req) = 500 /\
  json_body (run env req) = Some (internal_error_body e) /\
  written (run env req) = [] /\
  headers (run env req) = cors_headers.
Proof.
  intros Hv Hc Hf.
  destruct (called_course env req rq Hv Hc) as (cod & _ & H).
  rewrite Hf in H. destruct H as (H1 & H2 & H3 & H4 & _). auto.
Qed.

Lemma rejected_fetch_reported_witness :
  valid offline hello /\
  upstream_calls (run offline hello) = [sent_buffered [user_message "Hello"]] /\
  fetch offline (sent_buffered [user_message "Hello"]) =
    Rejected (NetworkError "fetch failed") /\
  statusCode (run offline hello) = 500 /\
  json_body (run offline hello) =
    Some (internal_error_body (NetworkError "fetch failed")) /\
  written (run offline hello) = [] /\
  headers (run offline hello) = cors_headers.
Proof.
  assert (Hv : valid offline hello) by (repeat split; reflexivity).
  assert (Hc : upstream_calls (run offline hello) =
               [sent_buffered [user_message "Hello"]]) by (vm_compute; reflexivity).
  exact (conj Hv (conj Hc (conj eq_refl
    (rejected_fetch_reported _ _ _ _ Hv Hc eq_refl)))).
Defined.

(** A streaming request accepted by the upstream with no readable body is
    answered 500 with [{"error":"No response body from API"}]; the headers
    have already been switched to those of the event stream. *)
Theorem missing_stream_reported env req rq r :
  valid env req ->
  streaming req = true ->
  upstream_calls (run env req) = [rq] ->
  fetch env rq = Responded r ->
  ok r = true ->
  body_of r = None ->
  statusCode (run env req) = 500 /\
  json_body (run env req) = Some no_body_body /\
  written (run env req) = [] /\
  headers (run env req) !! "Content-Type" = Some "text/event-stream".
Proof.
  intros Hv Hs Hc Hf Hok Hb.
  destruct (called_course env req rq Hv Hc) as (cod & _ & H).
  unfold forwarded, streaming in *. rewrite Hf, Hok, Hs, Hb in H.
  destruct H as (H1 & H2 & H3 & H4 & _). rewrite H1. auto.
Qed.

Lemma missing_stream_reported_witness :
  valid (answering (json_response 200 greeting)) hello_stream /\
  streaming hello_stream = true /\
  upstream_calls (run (answering (json_response 200 greeting)) hello_stream) =
    [sent_streaming [user_message "Hello"]] /\
  fetch (answering (json_response 200 greeting)) (sent_streaming [user_message "Hello"]) =
    Responded (json_response 200 greeting) /\
  ok (json_response 200 greeting) = true /\
  body_of (json_response 200 greeting) = None /\
  statusCode (run (answering (json_response 200 greeting)) hello_stream) = 500 /\
  json_body (run (answering (json_response 200 greeting)) hello_stream) =
    Some no_body_body /\
  written (run (answering (json_response 200 greeting)) hello_stream) = [] /\
  headers (run (answering (json_response 200 greeting)) hello_stream)
    !! "Content-Type" = Some "text/event-stream".
Proof.
  assert (Hv : valid (answering (json_response 200 greeting)) hello_stream)
    by (repeat split; reflexivity).
  assert (Hc : upstream_calls (run (answering (json_response 200 greeting)) hello_stream) =
               [sent_streaming [user_message "Hello"]]) by (vm_compute; reflexivity).
  exact (conj Hv (conj eq_refl (conj Hc (conj eq_refl (conj eq_refl (conj eq_refl
    (missing_stream_reported _ _ _ _ Hv eq_refl Hc eq_refl eq_refl eq_refl))))))).
Defined.

(** When the upstream answers a buffered request with a success status and a
    body that is not JSON, the handler answers 500 with the message of the
    parse error. *)
Theorem unparsable_document_reported env req rq r e :
  valid env req ->
  streaming req = false ->
  upstream_calls (run env req) = [rq] ->
  fetch env rq = Responded r ->
  ok r = true ->
  json_of r = Throw e ->
  statusCode (run env req) = 500 /\
  json_body (run env req) = Some (internal_error_body e) /\
  written (run env req) = [] /\
  headers (run env req) = cors_headers.
Proof.
  intros Hv Hs Hc Hf Hok Hj.
  destruct (called_course env req rq Hv Hc) as (cod & _ & H).
  unfold forwarded, streaming in *. rewrite Hf, Hok, Hs, Hj in H.
  destruct H as (H1 & H2 & H3 & H4 & _). auto.
Qed.

Lemma unparsable_document_reported_witness :
  valid (answering not_json) hello /\
  streaming hello = false /\
  upstream_calls (run (answering not_json) hello) =
    [sent_buffered [user_message "Hello"]] /\
  fetch (answering not_json) (sent_buffered [user_message "Hello"]) =
    Responded not_json /\
  ok not_json = true /\
  json_of not_json = Throw (SyntaxError "Unexpected token '<'") /\
  statusCode (run (answering not_json) hello) = 500 /\
  json_body (run (answering not_json) hello) =
    Some (internal_error_body (SyntaxError "Unexpected token '<'")) /\
  written (run (answering not_json) hello) = [] /\
  headers (run (answering not_json) hello) = cors_headers.
Proof.
  assert (Hv : valid (answering not_json) hello) by (repeat split; reflexivity).
  assert (Hc : upstream_calls (run (answering not_json) hello) =
               [sent_buffered [user_message "Hello"]]) by (vm_compute; reflexivity).
  exact (conj Hv (conj eq_refl (conj Hc (conj eq_refl (conj eq_refl (conj eq_refl
    (unparsable_document_reported _ _ _ _ _ Hv eq_refl Hc eq_refl eq_refl eq_refl))))))).
Defined.

(** When the upstream answers with a failure status and its body cannot be
    read, the status of the upstream is lost: the handler answers 500 with
    the message of the read error. *)
Theorem unreadable_failure_reported env req rq r e :
  valid env req ->
  upstream_calls (run env req) = [rq] ->
  fetch env rq = Responded r ->
  ok r = false ->
  text_of r = Throw e ->
  statusCode (run env req) = 500 /\
  json_body (run env req) = Some (internal_error_body e) /\
  written (run env req) = [] /\
  headers (run env req) = cors_headers.
Proof.
  intros Hv Hc Hf Hok HT.
  destruct (called_course env req rq Hv Hc) as (cod & _ & H).
  unfold forwarded in *. rewrite Hf, Hok, HT in H. cbn [negb] in H.
  destruct H as (H1 & H2 & H3 & H4 & _). auto.
Qed.

Lemma unreadable_failure_reported_witness :
  valid (answering broken_failure) hello /\
  upstream_calls (run (answering broken_failure) hello) =
    [sent_buffered [user_message "Hello"]] /\
  fetch (answering broken_failure) (sent_buffered [user_message "Hello"]) =
    Responded broken_failure /\
  ok broken_failure = false /\
  text_of broken_failure = Throw (NetworkError "terminated") /\
  statusCode (run (answering broken_failure) hello) = 500 /\
  json_body (run (answering broken_failure) hello) =
    Some (internal_error_body (NetworkError "terminated")) /\
  written (run (answering broken_failure) hello) = [] /\
  headers (run (answering broken_failure) hello) = cors_headers.
Proof.
  assert (Hv : valid (answering broken_failure) hello) by (repeat split; reflexivity).
  assert (Hc : upstream_calls (run (answering broken_failure) hello) =
               [sent_buffered [user_message "Hello"]]) by (vm_compute; reflexivity).
  exact (conj Hv (conj Hc (conj eq_refl (conj eq_refl (conj eq_refl
    (unreadable_failure_reported _ _ _ _ _ Hv Hc eq_refl eq_refl eq_refl)))))).
Defined.

(** *** The request sent upstream *)

(** The upstream call is a POST to the chat completions endpoint that
    carries the credential as a bearer token and announces JSON; it asks for
    an event stream exactly when the request has a truthy [stream]. *)
Theorem upstream_call_shape env req rq :
  valid env req ->
  upstream_calls (run env req) = [rq] ->
  exists apiKey,
    FIREWORKS_API_KEY env = Some apiKey /\
    url rq = "https://api.fireworks.ai/inference/v1/chat/completions" /\
    fetch_method rq = "POST" /\
    fetch_headers rq =
      ([("Authorization", ("Bearer " ++ apiKey)%string); ("Content-Type", "application/json")] ++
       (if streaming req then [("Accept", "text/event-stream")] else []))%list.
Proof.
  intros Hv Hc.
  destruct (run_called env req rq Hv Hc)
    as (k & cod & payload & w0 & _ & Hk & _ & _ & -> & _).
  exists k. split; [exact Hk|]. unfold upstream_request, streaming.
  cbn [url fetch_method fetch_headers].
  destruct (truthy (prop (body req) "stream")); repeat split.
Qed.

Lemma upstream_call_shape_witness :
  valid (answering (stream_response_of [] EndOfData)) hello_stream /\
  upstream_calls (run (answering (stream_response_of [] EndOfData)) hello_stream) =
    [sent_streaming [user_message "Hello"]] /\
  exists apiKey,
    FIREWORKS_API_KEY (answering (stream_response_of [] EndOfData)) = Some apiKey /\
    url (sent_streaming [user_message "Hello"]) =
      "https://api.fireworks.ai/inference/v1/chat/completions" /\
    fetch_method (sent_streaming [user_message "Hello"]) = "POST" /\
    fetch_headers (sent_streaming [user_message "Hello"]) =
      ([("Authorization", ("Bearer " ++ apiKey)%string); ("Content-Type", "application/json")] ++
       (if streaming hello_stream then [("Accept", "text/event-stream")] else []))%list.
Proof.
  assert (Hv : valid (answering (stream_response_of [] EndOfData)) hello_stream)
    by (repeat split; reflexivity).
  assert (Hc : upstream_calls
                 (run (answering (stream_response_of [] EndOfData)) hello_stream) =
               [sent_streaming [user_message "Hello"]]) by (vm_compute; reflexivity).
  exact (conj Hv (conj Hc (upstream_call_shape _ _ _ Hv Hc))).
Defined.

(** Each of the seven optional fields is forwarded as the caller gave it when
    its value is truthy, whatever its type and size, and replaced by its
    default otherwise: nothing is validated or clamped, and [null], [false],
    the empty string and NaN are overwritten like 0. *)
Theorem optional_field_forwarded env req rq field default :
  valid env req ->
  upstream_calls (run env req) = [rq] ->
  In (field, default) defaults ->
  prop (fetch_body rq) field =
    if truthy (prop (body req) field) then prop (body req) field else default.
Proof.
  intros Hv Hc Hin.
  destruct (run_called env req rq Hv Hc)
    as (k & cod & payload & w0 & _ & _ & _ & Hp & -> & _).
  cbn [fetch_body upstream_request prop]. unfold payload_of in Hp.
  pose proof (fun key => add_tools_keeps _ _ _ _ key Hp) as Hkeep.
  cbn [defaults In] in Hin.
  repeat (destruct Hin as [Hin|Hin];
          [injection Hin as <- <-; rewrite Hkeep by reflexivity; reflexivity|]).
  destruct Hin.
Qed.

Lemma optional_field_forwarded_witness :
  valid (answering (json_response 200 greeting)) hot /\
  upstream_calls (run (answering (json_response 200 greeting)) hot) = [sent_hot] /\
  In ("top_k", VNum num_40) defaults /\
  prop (fetch_body sent_hot) "top_k" =
    if truthy (prop (body hot) "top_k") then prop (body hot) "top_k" else VNum num_40.
Proof.
  assert (Hv : valid (answering (json_response 200 greeting)) hot)
    by (repeat split; reflexivity).
  assert (Hc : upstream_calls (run (answering (json_response 200 greeting)) hot) =
               [sent_hot]) by (vm_compute; reflexivity).
  assert (Hin : In ("top_k", VNum num_40) defaults)
    by (right; right; left; reflexivity).
  exact (conj Hv (conj Hc (conj Hin
    (optional_field_forwarded _ _ _ _ _ Hv Hc Hin)))).
Defined.

(** A non-empty array of tools is forwarded as it is, with the choice of
    tool when that is truthy. *)
Theorem tools_forwarded env req rq tool tools :
  valid env req ->
  upstream_calls (run env req) = [rq] ->
  prop (body req) "tools" = VArr (tool :: tools) ->
  prop (fetch_body rq) "tools" = VArr (tool :: tools) /\
  prop (fetch_body rq) "tool_choice" =
    if truthy (prop (body req) "tool_choice") then prop (body req) "tool_choice"
    else VUndef.
Proof.
  intros Hv Hc Ht.
  destruct (run_called env req rq Hv Hc)
    as (k & cod & payload & w0 & _ & _ & _ & Hp & -> & _).
  cbn [fetch_body upstream_request prop]. unfold payload_of, add_tools in Hp.
  rewrite Ht in Hp. cbn [toolsEnabled truthy length_gt0 length Nat.ltb Nat.leb] in Hp.
  injection Hp as <-.
  destruct (truthy (prop (body req) "tool_choice")); split; reflexivity.
Qed.

Lemma tools_forwarded_witness :
  valid (answering (json_response 200 greeting)) with_tools /\
  upstream_calls (run (answering (json_response 200 greeting)) with_tools) =
    [sent_with_tools] /\
  prop (body with_tools) "tools" = VArr [weather_tool] /\
  prop (fetch_body sent_with_tools) "tools" = VArr [weather_tool] /\
  prop (fetch_body sent_with_tools) "tool_choice" =
    if truthy (prop (body with_tools) "tool_choice")
    then prop (body with_tools) "tool_choice" else VUndef.
Proof.
  assert (Hv : valid (answering (json_response 200 greeting)) with_tools)
    by (repeat split; reflexivity).
  assert (Hc : upstream_calls (run (answering (json_response 200 greeting)) with_tools) =
               [sent_with_tools]) by (vm_compute; reflexivity).
  exact (conj Hv (conj Hc (conj eq_refl
    (tools_forwarded _ _ _ _ _ Hv Hc eq_refl)))).
Defined.

(** Without tools there is no choice of tool: when [tools] is absent, null
    or an empty array, the payload has neither [tools] nor [tool_choice],
    whatever [tool_choice] the caller supplied. *)
Theorem tool_choice_needs_tools env req rq :
  valid env req ->
  upstream_calls (run env req) = [rq] ->
  prop (body req) "tools" = VUndef \/
  prop (body req) "tools" = VNull \/
  prop (body req) "tools" = VArr [] ->
  prop (fetch_body rq) "tools" = VUndef /\
  prop (fetch_body rq) "tool_choice" = VUndef.
Proof.
  intros Hv Hc Ht.
  destruct (run_called env req rq Hv Hc)
    as (k & cod & payload & w0 & _ & _ & _ & Hp & -> & _).
  cbn [fetch_body upstream_request prop]. unfold payload_of, add_tools in Hp.
  destruct Ht as [Ht|[Ht|Ht]]; rewrite Ht in Hp;
    cbn [toolsEnabled truthy length_gt0 length Nat.ltb Nat.leb] in Hp;
    injection Hp as <-; split; reflexivity.
Qed.

Lemma tool_choice_needs_tools_witness :
  valid (answering (json_response 200 greeting)) choice_without_tools /\
  upstream_calls (run (answering (json_response 200 greeting)) choice_without_tools) =
    [sent_buffered [user_message "Hello"]] /\
  (prop (body choice_without_tools) "tools" = VUndef \/
   prop (body choice_without_tools) "tools" = VNull \/
   prop (body choice_without_tools) "tools" = VArr []) /\
  prop (fetch_body (sent_buffered [user_message "Hello"])) "tools" = VUndef /\
  prop (fetch_body (sent_buffered [user_message "Hello"])) "tool_choice" = VUndef.
Proof.
  assert (Hv : valid (answering (json_response 200 greeting)) choice_without_tools)
    by (repeat split; reflexivity).
  assert (Hc : upstream_calls
                 (run (answering (json_response 200 greeting)) choice_without_tools) =
               [sent_buffered [user_message "Hello"]]) by (vm_compute; reflexivity).
  assert (Ht : prop (body choice_without_tools) "tools" = VUndef \/
               prop (body choice_without_tools) "tools" = VNull \/
               prop (body choice_without_tools) "tools" = VArr [])
    by (right; right; reflexivity).
  exact (conj Hv (conj Hc (conj Ht (tool_choice_needs_tools _ _ _ Hv Hc Ht)))).
Defined.

(** *** Requests that the handler cannot log *)

(** A valid request whose logs throw is refused: when the detection of
    lines 41-48 or the preview of line 56 throws (as they do when the
    messages are not an array, or when the content of the last message is an
    array), the answer is 500 with the document of the outer [catch], and
    the upstream is not called. *)
Theorem unloggable_request_refused env req :
  valid env req ->
  ~ request_logged req ->
  statusCode (run env req) = 500 /\
  (exists e, json_body (run env req) = Some (internal_error_body e)) /\
  written (run env req) = [] /\
  upstream_calls (run env req) = [].
Proof.
  intros Hv Hlog. pose proof Hv as (Hm & Hk & Hmodel & Hmsgs).
  unfold run, handler, serve, api_key_present in *. rewrite Hm.
  change (String.eqb "POST" "OPTIONS") with false.
  change (String.eqb "POST" "POST") with true.
  destruct (FIREWORKS_API_KEY env) as [[|c k]|]; try discriminate.
  assert (Hb : nullish (body req) = false)
    by (destruct (body req); try reflexivity; discriminate).
  rewrite Hb, Hmodel, Hmsgs. msimpl.
  destruct (hasAdvancedCoD _) as [cod|e] eqn:Hcod.
  2:{ repeat split. exists e. reflexivity. }
  destruct (toolsEnabled _) as [enabled|e].
  2:{ repeat split. exists e. reflexivity. }
  destruct (lastMessagePreview _) as [preview|e] eqn:Hp.
  2:{ repeat split. exists e. reflexivity. }
  exfalso. apply Hlog. exists cod, preview. split; assumption.
Qed.

Lemma unloggable_request_refused_witness :
  valid offline messages_as_text /\
  ~ request_logged messages_as_text /\
  statusCode (run offline messages_as_text) = 500 /\
  (exists e, json_body (run offline messages_as_text) = Some (internal_error_body e)) /\
  written (run offline messages_as_text) = [] /\
  upstream_calls (run offline messages_as_text) = [].
Proof.
  assert (Hv : valid offline messages_as_text) by (repeat split; reflexivity).
  assert (Hl : ~ request_logged messages_as_text)
    by (intros (cod & preview & H & _); discriminate H).
  exact (conj Hv (conj Hl (unloggable_request_refused _ _ Hv Hl))).
Defined.

(** A POST request without a body is not a bad request: with the credential
    present and [req.body] null or undefined, the destructuring of line 29
    throws and the answer is 500, not 400; the upstream is not called. *)
Theorem absent_body_is_internal_error env req :
  method req = "POST" ->
  api_key_present env = true ->
  nullish (body req) = true ->
  statusCode (run env req) = 500 /\
  json_body (run env req) =
    Some (internal_error_body
            (TypeError ("Cannot destructure property 'model' of 'req.body' as it is "
                        ++ nullish_name (body req) ++ "."))) /\
  written (run env req) = [] /\
  upstream_calls (run env req) = [].
Proof.
  intros Hm Hk Hb. unfold run, handler, serve, api_key_present in *. rewrite Hm.
  change (String.eqb "POST" "OPTIONS") with false.
  change (String.eqb "POST" "POST") with true.
  destruct (FIREWORKS_API_KEY env) as [[|c k]|]; try discriminate.
  rewrite Hb. msimpl. repeat split.
Qed.

Lemma absent_body_is_internal_error_witness :
  method (post VNull) = "POST" /\
  api_key_present offline = true /\
  nullish (body (post VNull)) = true /\
  statusCode (run offline (post VNull)) = 500 /\
  json_body (run offline (post VNull)) =
    Some (internal_error_body
            (TypeError ("Cannot destructure property 'model' of 'req.body' as it is "
                        ++ nullish_name (body (post VNull)) ++ "."))) /\
  written (run offline (post VNull)) = [] /\
  upstream_calls (run offline (post VNull)) = [].
Proof.
  exact (conj eq_refl (conj eq_refl (conj eq_refl
    (absent_body_is_internal_error offline (post VNull) eq_refl eq_refl eq_refl)))).
Defined.

(** *** The detection of the reflection prompts *)

Lemma prefix_occurs needle : forall hay,
  String.prefix needle hay = true <-> exists rest, hay = needle ++ rest.
Proof.
  induction needle as [|a needle IH]; intros hay.
  - destruct hay; cbn [String.prefix];
      (split; [intros _; eexists; reflexivity|reflexivity]).
  - destruct hay as [|b hay]; cbn [String.prefix].
    + split; [discriminate|intros (rest & H); discriminate H].
    + destruct (ascii_dec a b) as [->|Hne].
      * rewrite IH. split; intros (rest & H); exists rest.
        -- cbn. rewrite H. reflexivity.
        -- cbn in H. injection H as H. exact H.
      * split; [discriminate|]. intros (rest & H). cbn in H.
        injection H as H _. congruence.
Qed.

Lemma includes_occurs hay needle :
  includes hay needle = true <-> occurs needle hay.
Proof.
  unfold occurs. induction hay as [|c hay IH]; cbn [includes].
  - rewrite orb_false_r, prefix_occurs. split.
    + intros (rest & H). exists "", rest. exact H.
    + intros ([|b before] & after & H); [exists after; exact H|discriminate H].
  - rewrite orb_true_iff, prefix_occurs, IH. split.
    + intros [(rest & H)|(before & after & H)].
      * exists "", rest. exact H.
      * exists (String c before), after. cbn. rewrite H. reflexivity.
    + intros ([|b before] & after & H).
      * left. exists after. exact H.
      * right. cbn in H. injection H as _ H. exists before, after. exact H.
Qed.

Lemma mentions_occurs fields content needles :
  lookup_field "content" fields = VStr content ->
  exists b,
    mentions (VObj fields) needles = Ok b /\
    (b = true <-> exists needle, In needle needles /\ occurs needle content).
Proof.
  intros Hc. induction needles as [|needle rest (b & IH & Hb)].
  - exists false. split; [reflexivity|].
    split; [discriminate|intros (needle & [] & _)].
  - cbn [mentions]. unfold content_includes. cbn [nullish prop]. rewrite Hc.
    cbn [truthy]. destruct (includes content needle) eqn:Hi.
    + exists true. split; [reflexivity|]. split; [|reflexivity].
      intros _. exists needle. split; [left; reflexivity|].
      apply includes_occurs. exact Hi.
    + exists b. split; [exact IH|]. rewrite Hb. split.
      * intros (n & Hin & Ho). exists n. split; [right; exact Hin|exact Ho].
      * intros (n & [<-|Hin] & Ho).
        -- apply includes_occurs in Ho. congruence.
        -- exists n. split; assumption.
Qed.

(** On messages with string contents the detection does not throw, and it
    answers true exactly when the content of some message contains one of
    the six markers, in that spelling and case. *)
Theorem detection_finds_markers ms :
  Forall plain_message ms ->
  exists b,
    hasAdvancedCoD (VArr ms) = Ok b /\
    (b = true <->
     exists fields content marker,
       In (VObj fields) ms /\ lookup_field "content" fields = VStr content /\
       In marker markers /\ occurs marker content).
Proof.
  unfold hasAdvancedCoD.
  induction 1 as [|m ms (fields & content & -> & Hc) _ (b & IH & Hb)].
  - exists false. split; [reflexivity|].
    split; [discriminate|intros (? & ? & ? & [] & _)].
  - cbn [some].
    destruct (mentions_occurs fields content markers Hc) as (b0 & -> & Hb0).
    destruct b0.
    + exists true. split; [reflexivity|]. split; [|reflexivity]. intros _.
      destruct (proj1 Hb0 eq_refl) as (marker & Hin & Ho).
      exists fields, content, marker. repeat split; try assumption. left; reflexivity.
    + exists b. split; [exact IH|]. rewrite Hb. split.
      * intros (f & c & mk & Hin & H1 & H2 & H3).
        exists f, c, mk. repeat split; try assumption. right; exact Hin.
      * intros (f & c & mk & [Heq|Hin] & H1 & H2 & H3).
        -- injection Heq as <-. rewrite Hc in H1. injection H1 as <-.
           assert (false = true) by (apply Hb0; exists mk; split; assumption).
           discriminate.
        -- exists f, c, mk. repeat split; assumption.
Qed.

Lemma detection_finds_markers_witness :
  Forall plain_message [user_message "What is 17 * 23? Chain of Draft"] /\
  exists b,
    hasAdvancedCoD (VArr [user_message "What is 17 * 23? Chain of Draft"]) = Ok b /\
    (b = true <->
     exists fields content marker,
       In (VObj fields) [user_message "What is 17 * 23? Chain of Draft"] /\
       lookup_field "content" fields = VStr content /\
       In marker markers /\ occurs marker content).
Proof.
  assert (H : Forall plain_message [user_message "What is 17 * 23? Chain of Draft"]).
  { constructor; [|constructor]. eexists _, _. split; reflexivity. }
  exact (conj H (detection_finds_markers _ H)).
Defined.

(** *** The preview of the last message *)

Lemma substring0_length n : forall s, (String.length (substring0 n s) <= n)%nat.
Proof.
  unfold substring0. induction n as [|n IH]; intros [|c s]; cbn; try lia.
  specialize (IH s). lia.
Qed.

Lemma substring0_prefix n : forall s, String.prefix (substring0 n s) s = true.
Proof.
  unfold substring0. induction n as [|n IH]; intros [|c s]; cbn; try reflexivity.
  destruct (ascii_dec c c); [apply IH|congruence].
Qed.

(** The preview logged for a request is at most the first 100 characters of
    the content of its last message, or the word [undefined], followed by
    three dots. *)
Theorem preview_is_bounded messages preview :
  lastMessagePreview messages = Ok preview ->
  exists head,
    preview = head ++ "..." /\
    (String.length head <= 100)%nat /\
    (head = "undefined" \/
     exists content,
       opt_prop (match messages with
                 | VArr elems => List.last elems VUndef
                 | _ => VUndef
                 end) "content" = VStr content /\
       String.prefix head content = true).
Proof.
  unfold lastMessagePreview. intros H.
  destruct (opt_prop _ "content") as [| | | |content| |] eqn:Hc; try discriminate;
    injection H as <-.
  - exists "undefined". split; [reflexivity|]. split; [cbn; lia|left; reflexivity].
  - exists "undefined". split; [reflexivity|]. split; [cbn; lia|left; reflexivity].
  - exists (substring0 100 content). split; [reflexivity|].
    split; [apply substring0_length|]. right. exists content.
    split; [reflexivity|apply substring0_prefix].
Qed.

Lemma preview_is_bounded_witness :
  lastMessagePreview (VArr [user_message "Hello"]) = Ok "Hello..." /\
  exists head,
    "Hello..." = head ++ "..." /\
    (String.length head <= 100)%nat /\
    (head = "undefined" \/
     exists content,
       opt_prop (List.last [user_message "Hello"] VUndef) "content" = VStr content /\
       String.prefix head content = true).
Proof.
  exact (conj eq_refl (preview_is_bounded (VArr [user_message "Hello"]) "Hello..." eq_refl)).
Defined.

(** *** The relay loop on arbitrary bytes *)

Lemma first_step_pending b :
  octet b = true ->
  pending (fst (utf8_step utf8_initial b)) /\
  forallb scalar (snd (utf8_step utf8_initial b)) = true.
Proof.
  unfold octet, in_range. intros Hb.
  assert (Hb' : 0 <= b <= 255) by lia. clear Hb. rename Hb' into Hb.
  destruct (Z_le_gt_dec b 0x7F).
  { rewrite step_ascii by lia. cbn [fst snd forallb]. split; [left; reflexivity|].
    unfold scalar, in_range. lia. }
  destruct (Z_le_gt_dec b 0xC1).
  { unfold utf8_step, lead. cbn [bytes_needed utf8_initial].
    change (0 =? 0) with true. cbv iota.
    rewrite !in_range_false by lia. split; [left; reflexivity|reflexivity]. }
  destruct (Z_le_gt_dec b 0xDF).
  { rewrite step_lead2 by lia. cbn [fst snd forallb]. split; [|reflexivity].
    right. left. cbn. repeat split; try reflexivity. left. repeat split; arith. }
  destruct (Z_le_gt_dec b 0xEF).
  { rewrite step_lead3 by lia. cbn [fst snd forallb]. split; [|reflexivity].
    right. right. left. cbn.
    destruct (b =? 0xE0) eqn:E1; destruct (b mod 16 =? 0) eqn:E2;
      destruct (b =? 0xED) eqn:E3; destruct (b mod 16 =? 13) eqn:E4;
      repeat split; arith. }
  destruct (Z_le_gt_dec b 0xF4).
  { rewrite step_lead4 by lia. cbn [fst snd forallb]. split; [|reflexivity].
    right. right. right. cbn.
    destruct (b =? 0xF0) eqn:E1; destruct (b mod 8 =? 0) eqn:E2;
      destruct (b =? 0xF4) eqn:E3; destruct (b mod 8 =? 4) eqn:E4;
      repeat split; arith. }
  unfold utf8_step, lead. cbn [bytes_needed utf8_initial].
  change (0 =? 0) with true. cbv iota.
  rewrite !in_range_false by lia. split; [left; reflexivity|reflexivity].
Qed.

Lemma step_pending st b :
  pending st -> octet b = true ->
  pending (fst (utf8_step st b)) /\
  forallb scalar (snd (utf8_step st b)) = true.
Proof.
  intros Hp Hb.
  assert (Hrestart : bytes_needed st <> 0 ->
            negb (in_range (lower_boundary st) (upper_boundary st) b) = true ->
            pending (fst (utf8_step st b)) /\
            forallb scalar (snd (utf8_step st b)) = true).
  { intros Hn Hout. unfold utf8_step. apply Z.eqb_neq in Hn. rewrite Hn, Hout.
    destruct (first_step_pending b Hb) as [H1 H2].
    unfold utf8_step in H1, H2. cbn [bytes_needed utf8_initial] in H1, H2.
    change (0 =? 0) with true in H1, H2. cbv iota in H1, H2.
    destruct (lead utf8_initial b) as [st' out]. cbn [fst snd] in *.
    split; [exact H1|]. cbn [forallb]. rewrite H2. reflexivity. }
  destruct Hp as [->|Hp]; [apply first_step_pending; exact Hb|].
  destruct (negb (in_range (lower_boundary st) (upper_boundary st) b)) eqn:Hin.
  { apply Hrestart; [|reflexivity].
    destruct Hp as [(_ & _ & [H|[H|[H|H]]])|[H|H]]; lia. }
  clear Hrestart. apply negb_false_iff in Hin. unfold in_range in Hin.
  apply andb_true_iff in Hin as [Hlo Hhi].
  apply Z.leb_le in Hlo. apply Z.leb_le in Hhi.
  rewrite step_continue;
    [|destruct Hp as [(_ & _ & [H|[H|[H|H]]])|[H|H]]; lia|lia].
  destruct Hp as [(Hl & Hu & [H|[H|[H|H]]])|[H|H]].
  - destruct H as (-> & -> & Hc). change (0 + 1 =? 1) with true.
    cbv iota. cbn [fst snd forallb].
    split; [left; reflexivity|]. rewrite andb_true_r. apply scalar_spec. arith.
  - destruct H as (-> & -> & Hc). change (1 + 1 =? 2) with true.
    cbv iota. cbn [fst snd forallb].
    split; [left; reflexivity|]. rewrite andb_true_r. apply scalar_spec. arith.
  - destruct H as (-> & -> & Hc). change (1 + 1 =? 3) with false.
    cbv iota. cbn [fst snd forallb].
    split; [|reflexivity]. right. left.
    cbn [code_point bytes_seen bytes_needed lower_boundary upper_boundary].
    split; [reflexivity|]. split; [reflexivity|].
    right. right. right. repeat split; arith.
  - destruct H as (-> & -> & Hc). change (2 + 1 =? 3) with true.
    cbv iota. cbn [fst snd forallb].
    split; [left; reflexivity|]. rewrite andb_true_r. apply scalar_spec. arith.
  - destruct H as (-> & -> & Hc & Hl & Hu). change (0 + 1 =? 2) with false.
    cbv iota. cbn [fst snd forallb].
    split; [|reflexivity]. right. left.
    cbn [code_point bytes_seen bytes_needed lower_boundary upper_boundary].
    split; [reflexivity|]. split; [reflexivity|].
    right. left. split; [reflexivity|]. split; [reflexivity|].
    destruct (code_point st =? 0) eqn:E0; destruct (code_point st =? 13) eqn:E13; arith.
  - destruct H as (-> & -> & Hc & Hl & Hu). change (0 + 1 =? 3) with false.
    cbv iota. cbn [fst snd forallb].
    split; [|reflexivity]. right. left.
    cbn [code_point bytes_seen bytes_needed lower_boundary upper_boundary].
    split; [reflexivity|]. split; [reflexivity|].
    right. right. left. split; [reflexivity|]. split; [reflexivity|].
    destruct (code_point st =? 0) eqn:E0; destruct (code_point st =? 4) eqn:E4; arith.
Qed.

Lemma run_pending bs : forall st,
  pending st -> forallb octet bs = true ->
  pending (fst (utf8_run st bs)) /\
  forallb scalar (snd (utf8_run st bs)) = true.
Proof.
  induction bs as [|b bs IH]; intros st Hp Hbs; [split; [exact Hp|reflexivity]|].
  cbn [forallb] in Hbs. apply andb_true_iff in Hbs as [Hb Hrest].
  cbn [utf8_run]. destruct (step_pending st b Hp Hb) as [H1 H2].
  destruct (utf8_step st b) as [st1 out1]. cbn [fst snd] in H1, H2.
  destruct (IH st1 H1 Hrest) as [H3 H4].
  destruct (utf8_run st1 bs) as [st2 out2]. cbn [fst snd] in *.
  split; [exact H3|]. rewrite forallb_app, H2, H4. reflexivity.
Qed.

Lemma decode_pending d value :
  pending (utf8 d) -> forallb octet value = true ->
  pending (utf8 (fst (decode d value))) /\
  scalars (snd (decode d value)) = true.
Proof.
  intros Hp Hv. unfold decode.
  destruct (run_pending value (utf8 d) Hp Hv) as [H1 H2].
  destruct (utf8_run (utf8 d) value) as [st out]. cbn [fst snd] in H1, H2.
  destruct out as [|c rest]; cbn [fst snd utf8]; [split; [exact H1|reflexivity]|].
  split; [exact H1|].
  destruct (negb (bom_seen d) && (c =? BOM)); [|exact H2].
  cbn [forallb] in H2. apply andb_true_iff in H2 as [_ H2]. exact H2.
Qed.

Lemma relay_texts_scalars cs : forall d,
  pending (utf8 d) -> octets cs = true ->
  Forall (fun t => scalars t = true) (relay_texts d cs).
Proof.
  induction cs as [|c cs IH]; intros d Hp Hcs; [constructor|].
  unfold octets in *. cbn [forallb] in Hcs. apply andb_true_iff in Hcs as [Hc Hrest].
  cbn [relay_texts]. destruct (decode_pending d c Hp Hc) as [H1 H2].
  destruct (decode d c) as [d' chunk]. cbn [fst snd] in H1, H2.
  constructor; [exact H2|apply IH; assumption].
Qed.

Lemma terminal_event_whole : whole terminal_event.
Proof. exists terminal_event. split; vm_compute; reflexivity. Qed.

Lemma encoded_whole ts :
  Forall (fun t => scalars t = true) ts -> Forall whole (map encode ts).
Proof.
  induction 1 as [|t ts Ht _ IH]; cbn [map]; constructor; [|exact IH].
  exists t. split; [exact Ht|reflexivity].
Qed.

(** Whatever bytes the upstream body delivers, every write of the streaming
    branch is well-formed UTF-8: the handler writes the strings decoded from
    the chunks, in which every byte that is not UTF-8 has been replaced, and
    the terminal event. *)
Theorem writes_are_well_formed env req rq r s :
  valid env req ->
  streaming req = true ->
  upstream_calls (run env req) = [rq] ->
  fetch env rq = Responded r ->
  ok r = true ->
  body_of r = Some s ->
  octets (chunks s) = true ->
  Forall whole (written (run env req)).
Proof.
  intros Hv Hs Hc Hf Hok Hb Ho.
  destruct (run_streamed env req rq r s Hv Hs Hc Hf Hok Hb) as (_ & -> & _ & _).
  apply Forall_app. split.
  - apply encoded_whole. apply relay_texts_scalars; [left; reflexivity|exact Ho].
  - destruct (finish s); cbn [closing]; [constructor|].
    rewrite interrupted_event_bytes. constructor; [apply terminal_event_whole|constructor].
Qed.

Lemma writes_are_well_formed_witness :
  valid (answering (stream_response_of noise_chunks (ReadFails connection_reset)))
    hello_stream /\
  streaming hello_stream = true /\
  upstream_calls
    (run (answering (stream_response_of noise_chunks (ReadFails connection_reset)))
       hello_stream) = [sent_streaming [user_message "Hello"]] /\
  fetch (answering (stream_response_of noise_chunks (ReadFails connection_reset)))
    (sent_streaming [user_message "Hello"]) =
    Responded (stream_response_of noise_chunks (ReadFails connection_reset)) /\
  ok (stream_response_of noise_chunks (ReadFails connection_reset)) = true /\
  body_of (stream_response_of noise_chunks (ReadFails connection_reset)) =
    Some {| chunks := noise_chunks; finish := ReadFails connection_reset |} /\
  octets noise_chunks = true /\
  Forall whole
    (written (run (answering (stream_response_of noise_chunks (ReadFails connection_reset)))
                hello_stream)).
Proof.
  assert (Hv : valid (answering (stream_response_of noise_chunks (ReadFails connection_reset)))
                 hello_stream) by (repeat split; reflexivity).
  assert (Hc : upstream_calls
                 (run (answering (stream_response_of noise_chunks (ReadFails connection_reset)))
                    hello_stream) = [sent_streaming [user_message "Hello"]])
    by (vm_compute; reflexivity).
  exact (conj Hv (conj eq_refl (conj Hc (conj eq_refl (conj eq_refl (conj eq_refl
    (conj eq_refl
      (writes_are_well_formed _ _ _ _ _ Hv eq_refl Hc eq_refl eq_refl eq_refl
         eq_refl)))))))).
Defined.

(** The streaming branch makes one write for each read that delivers a chunk,
    whatever the bytes, and after them one more write only when a read
    fails: the terminal event, which is then the last write. *)
Theorem one_write_per_read env req rq r s :
  valid env req ->
  streaming req = true ->
  upstream_calls (run env req) = [rq] ->
  fetch env rq = Responded r ->
  ok r = true ->
  body_of r = Some s ->
  match finish s with
  | EndOfData => length (written (run env req)) = length (chunks s)
  | ReadFails _ =>
      exists ws, written (run env req) = (ws ++ [terminal_event])%list /\
                 length ws = length (chunks s)
  end.
Proof.
  intros Hv Hs Hc Hf Hok Hb.
  destruct (run_streamed env req rq r s Hv Hs Hc Hf Hok Hb) as (_ & -> & _ & _).
  destruct (finish s); cbn [closing].
  - rewrite app_nil_r, length_map. apply relay_texts_length.
  - rewrite interrupted_event_bytes. eexists. split; [reflexivity|].
    rewrite length_map. apply relay_texts_length.
Qed.

Lemma one_write_per_read_witness :
  valid (answering (stream_response_of noise_chunks (ReadFails connection_reset)))
    hello_stream /\
  streaming hello_stream = true /\
  upstream_calls
    (run (answering (stream_response_of noise_chunks (ReadFails connection_reset)))
       hello_stream) = [sent_streaming [user_message "Hello"]] /\
  fetch (answering (stream_response_of noise_chunks (ReadFails connection_reset)))
    (sent_streaming [user_message "Hello"]) =
    Responded (stream_response_of noise_chunks (ReadFails connection_reset)) /\
  ok (stream_response_of noise_chunks (ReadFails connection_reset)) = true /\
  body_of (stream_response_of noise_chunks (ReadFails connection_reset)) =
    Some {| chunks := noise_chunks; finish := ReadFails connection_reset |} /\
  exists ws,
    written (run (answering (stream_response_of noise_chunks (ReadFails connection_reset)))
               hello_stream) = (ws ++ [terminal_event])%list /\
    length ws = length noise_chunks.
Proof.
  assert (Hv : valid (answering (stream_response_of noise_chunks (ReadFails connection_reset)))
                 hello_stream) by (repeat split; reflexivity).
  assert (Hc : upstream_calls
                 (run (answering (stream_response_of noise_chunks (ReadFails connection_reset)))
                    hello_stream) = [sent_streaming [user_message "Hello"]])
    by (vm_compute; reflexivity).
  exact (conj Hv (conj eq_refl (conj Hc (conj eq_refl (conj eq_refl (conj eq_refl
    (one_write_per_read _ _ _ _
       {| chunks := noise_chunks; finish := ReadFails connection_reset |}
       Hv eq_refl Hc eq_refl eq_refl eq_refl))))))).
Defined.

(** A byte order mark at the start of a well-formed upstream body is not
    relayed: the bytes written are, taken together, the bytes of the body
    after the mark. *)
Theorem leading_mark_dropped env req rq r cs t :
  valid env req ->
  streaming req = true ->
  upstream_calls (run env req) = [rq] ->
  fetch env rq = Responded r ->
  ok r = true ->
  body_of r = Some {| chunks := cs; finish := EndOfData |} ->
  scalars t = true ->
  concat cs = encode (BOM :: t) ->
  concat (written (run env req)) = encode t.
Proof.
  intros Hv Hs Hc Hf Hok Hb Ht Hcs.
  destruct (run_streamed env req rq r _ Hv Hs Hc Hf Hok Hb) as (_ & -> & _ & _).
  cbn [chunks finish closing]. rewrite app_nil_r, <- encode_concat.
  rewrite relay_texts_concat. cbn [new_TextDecoder bom_seen utf8].
  unfold scalars in Ht.
  rewrite Hcs, decode_encode by (cbn [forallb]; rewrite Ht; reflexivity).
  reflexivity.
Qed.

Lemma leading_mark_dropped_witness :
  valid (answering (stream_response_of marked_chunks EndOfData)) hello_stream /\
  streaming hello_stream = true /\
  upstream_calls (run (answering (stream_response_of marked_chunks EndOfData)) hello_stream) =
    [sent_streaming [user_message "Hello"]] /\
  fetch (answering (stream_response_of marked_chunks EndOfData))
    (sent_streaming [user_message "Hello"]) =
    Responded (stream_response_of marked_chunks EndOfData) /\
  ok (stream_response_of marked_chunks EndOfData) = true /\
  body_of (stream_response_of marked_chunks EndOfData) =
    Some {| chunks := marked_chunks; finish := EndOfData |} /\
  scalars [0x68; 0x69] = true /\
  concat marked_chunks = encode (BOM :: [0x68; 0x69]) /\
  concat (written (run (answering (stream_response_of marked_chunks EndOfData)) hello_stream)) =
    encode [0x68; 0x69].
Proof.
  assert (Hv : valid (answering (stream_response_of marked_chunks EndOfData)) hello_stream)
    by (repeat split; reflexivity).
  assert (Hc : upstream_calls
                 (run (answering (stream_response_of marked_chunks EndOfData)) hello_stream) =
               [sent_streaming [user_message "Hello"]])
    by (vm_compute; reflexivity).
  assert (He : concat marked_chunks = encode (BOM :: [0x68; 0x69]))
    by (vm_compute; reflexivity).
  exact (conj Hv (conj eq_refl (conj Hc (conj eq_refl (conj eq_refl (conj eq_refl
    (conj eq_refl (conj He
      (leading_mark_dropped _ _ _ _ _ [0x68; 0x69] Hv eq_refl Hc eq_refl eq_refl
         eq_refl eq_refl He))))))))).
Defined.

(** *** Instances of the properties of the buffered relay and of the payload *)

Lemma buffered_success_relayed_witness :
  valid (answering (json_response 200 greeting)) hello /\
  streaming hello = false /\
  upstream_calls (run (answering (json_response 200 greeting)) hello) =
    [sent_buffered [user_message "Hello"]] /\
  fetch (answering (json_response 200 greeting)) (sent_buffered [user_message "Hello"]) =
    Responded (json_response 200 greeting) /\
  ok (json_response 200 greeting) = true /\
  json_of (json_response 200 greeting) = Ok greeting /\
  (hasAdvancedCoD (prop (body hello) "messages") = Ok false \/
   (exists content, response_content greeting = Ok content /\
                    (truthy content = false \/ exists s, content = VStr s))) /\
  statusCode (run (answering (json_response 200 greeting)) hello) = 200 /\
  json_body (run (answering (json_response 200 greeting)) hello) = Some greeting /\
  written (run (answering (json_response 200 greeting)) hello) = [] /\
  ended (run (answering (json_response 200 greeting)) hello) = true /\
  headers (run (answering (json_response 200 greeting)) hello) = cors_headers.
Proof.
  assert (Hv : valid (answering (json_response 200 greeting)) hello)
    by (repeat split; reflexivity).
  assert (Hc : upstream_calls (run (answering (json_response 200 greeting)) hello) =
               [sent_buffered [user_message "Hello"]])
    by (vm_compute; reflexivity).
  assert (Hcod : hasAdvancedCoD (prop (body hello) "messages") = Ok false)
    by (vm_compute; reflexivity).
  exact (conj Hv (conj eq_refl (conj Hc (conj eq_refl (conj eq_refl (conj eq_refl
    (conj (or_introl Hcod)
      (buffered_success_relayed _ _ _ _ _ Hv eq_refl Hc eq_refl eq_refl eq_refl
         (or_introl Hcod))))))))).
Defined.

Lemma zero_as_absent_witness :
  In ("temperature", VNum num_0_6) defaults /\
  has_field "temperature"
    [("model", model_name); ("messages", VArr [user_message "Hello"])] = false /\
  run offline
    (post (VObj (("temperature", VNum (S754_zero true))
                 :: [("model", model_name); ("messages", VArr [user_message "Hello"])]))) =
  run offline
    (post (VObj [("model", model_name); ("messages", VArr [user_message "Hello"])])).
Proof.
  exact (conj (or_introl eq_refl) (conj eq_refl
    (zero_as_absent offline
       [("model", model_name); ("messages", VArr [user_message "Hello"])]
       "temperature" (VNum num_0_6) true (or_introl eq_refl) eq_refl))).
Defined.

Lemma chat_request_forwarded_witness :
  valid offline hello /\
  prop (body hello) "messages" = VArr [user_message "Hello"] /\
  Forall plain_message [user_message "Hello"] /\
  prop (body hello) "tools" = VUndef /\
  exists rq, upstream_calls (run offline hello) = [rq].
Proof.
  assert (Hv : valid offline hello) by (repeat split; reflexivity).
  assert (Hp : Forall plain_message [user_message "Hello"]).
  { constructor; [|constructor].
    exists [("role", VStr "user"); ("content", VStr "Hello")], "Hello".
    split; reflexivity. }
  exact (conj Hv (conj eq_refl (conj Hp (conj eq_refl
    (chat_request_forwarded offline hello [user_message "Hello"] Hv eq_refl Hp eq_refl))))).
Defined.

End More.
